(** * Leaf-folder auditing: the classifier, the walkers and the summary

    A shallow embedding of the three scan implementations of the
    repository

      - [Streamlit]: [StreamlitMissingFilesDetector]
        (streamlit_missing_files_detector.py), the richer variant with
        zero-byte detection and four category lists;
      - [Cli]: [MissingFilesDetector] (detect_missing_files.py);
      - [Simple]: [scan_for_missing_files]
        (detect_missing_files_simple.py).

    The file system is a finite tree of entries.  Python dictionaries with
    a fixed key set are records, lists are lists, [self.results] is threaded
    explicitly, and the calls to [st.error] are collected in a log. *)

From Stdlib Require Import List String Ascii Bool Arith NArith Lia.
From Stdlib Require Import DecimalString.
Import ListNotations.
Open Scope list_scope.
Open Scope string_scope.
Open Scope nat_scope.
Set Warnings "-register-all".

(** ** Python string primitives *)

Module PyStr.

(** [str.lower] restricted to what the suffix tests can observe.  Names are
    byte strings (UTF-8): bytes above 127 are left alone, and no non-ASCII
    code point lower-cases to one of the characters of ".json", ".md" or
    ".log", so the byte-wise map decides the same suffix tests. *)
Definition lower_ascii (c : ascii) : ascii :=
  let n := nat_of_ascii c in
  if (65 <=? n) && (n <=? 90) then ascii_of_nat (n + 32) else c.

Fixpoint lower (s : string) : string :=
  match s with
  | EmptyString => EmptyString
  | String c s' => String (lower_ascii c) (lower s')
  end.

(** [s.startswith(p)] *)
Definition startswith (s p : string) : bool := String.prefix p s.

(** [s.endswith(suf)]: some tail of [s] is [suf]. *)
Fixpoint endswith (s suf : string) : bool :=
  String.eqb s suf ||
  match s with
  | EmptyString => false
  | String _ s' => endswith s' suf
  end.

(** [sep.join(l)] *)
Fixpoint join (sep : string) (l : list string) : string :=
  match l with
  | [] => ""
  | [x] => x
  | x :: tl => x ++ sep ++ join sep tl
  end.

(** [str(n)] for a non-negative integer, as used by the f-strings. *)
Definition of_nat (n : nat) : string :=
  NilEmpty.string_of_uint (Nat.to_uint n).

Definition hidden (name : string) : bool := startswith name ".".

End PyStr.

(** ** The file system *)

(** An entry of a directory listing.  [st_size = None] stands for a
    [stat()] call that raises; [listable = false] for a directory whose
    listing raises [PermissionError].  [Special] is an entry that is neither
    [is_file()] nor [is_dir()] (socket, fifo, dangling link).  A link to a
    file is the file.  Symbolic links to directories are not modelled, the
    tree is a tree: this development is about disks without them, and says
    nothing on how the walkers compare where [os.walk] lists such a link
    without descending and [iterdir] follows it. *)
Inductive entry : Type :=
| File (name : string) (st_size : option N)
| Dir (name : string) (listable : bool) (items : list entry)
| Special (name : string).

Definition entry_name (e : entry) : string :=
  match e with
  | File n _ => n
  | Dir n _ _ => n
  | Special n => n
  end.

Definition is_dir (e : entry) : bool :=
  match e with Dir _ _ _ => true | _ => false end.

Definition is_file (e : entry) : bool :=
  match e with File _ _ => true | _ => false end.

(** Induction over the tree, with the hypothesis available for every item
    of a directory. *)
Section EntryInd.
Variable P : entry -> Prop.
Hypothesis HFile : forall n sz, P (File n sz).
Hypothesis HSpecial : forall n, P (Special n).
Hypothesis HDir : forall n l items, Forall P items -> P (Dir n l items).

Fixpoint entry_tree_ind (e : entry) : P e :=
  match e with
  | File n sz => HFile n sz
  | Special n => HSpecial n
  | Dir n l items =>
      HDir n l items
        ((fix all (xs : list entry) : Forall P xs :=
            match xs with
            | [] => Forall_nil P
            | x :: xs' => Forall_cons x (entry_tree_ind x) (all xs')
            end) items)
  end.
End EntryInd.

(** ** pathlib paths (POSIX flavour) *)

Module PyPath.

(** A [PurePosixPath]: its root ("", "/" or "//") and its parts below it. *)
Record Path : Type := mkPath { root : string; parts : list string }.

(** Splitting at "/" *)
Fixpoint split_slash (s : string) (cur : string) : list string :=
  match s with
  | EmptyString => [cur]
  | String c s' =>
      if Ascii.eqb c "/" then cur :: split_slash s' ""
      else split_slash s' (cur ++ String c "")
  end.

Definition keep_part (p : string) : bool :=
  negb (String.eqb p "") && negb (String.eqb p ".").

Definition root_of (s : string) : string :=
  if PyStr.startswith s "///" then "/"
  else if PyStr.startswith s "//" then "//"
  else if PyStr.startswith s "/" then "/"
  else "".

(** [Path(s)]: empty and "." components vanish, ".." stays. *)
Definition of_string (s : string) : Path :=
  mkPath (root_of s) (filter keep_part (split_slash s "")).

(** [p.name] *)
Definition name (p : Path) : string := last (parts p) "".

(** [p / child] for a single component taken from a directory listing. *)
Definition child (p : Path) (c : string) : Path :=
  mkPath (root p) (parts p ++ [c]).

Definition descend (p : Path) (rel : list string) : Path :=
  mkPath (root p) (parts p ++ rel).

(** [str(p)] *)
Definition str (p : Path) : string :=
  match root p, parts p with
  | "", [] => "."
  | r, ps => r ++ PyStr.join "/" ps
  end.

(** [str(q.relative_to(p))] where [q = descend p rel]. *)
Definition str_relative (rel : list string) : string :=
  match rel with
  | [] => "."
  | _ => PyStr.join "/" rel
  end.

End PyPath.

Import PyPath.

(** The state of the disk: what a path resolves to, if to anything. *)
Definition filesystem : Type := Path -> option entry.

(** ** os.walk *)

(** [os.walk(top)] (top-down, [onerror=None], links not followed) where the
    caller prunes the yielded [dirs] in place with [dirs[:] = [d for d in
    dirs if keep d]].  A directory whose listing fails yields nothing.  Each
    yielded triple is kept as the path below [top] and the listing itself;
    [walk_dirs] and [walk_files] give the two name lists of the triple. *)
Fixpoint os_walk (keep : string -> bool) (rel : list string) (e : entry)
  : list (list string * list entry) :=
  match e with
  | Dir _ true items =>
      (rel, items) ::
      flat_map (fun c =>
                  match c with
                  | Dir n _ _ =>
                      if keep n then os_walk keep (rel ++ [n]) c else []
                  | _ => []
                  end) items
  | _ => []
  end.

Definition walk_dirs (keep : string -> bool) (items : list entry)
  : list string :=
  filter keep (map entry_name (filter is_dir items)).

Definition walk_files (items : list entry) : list string :=
  map entry_name (filter (fun e => negb (is_dir e)) items).

Definition not_hidden (n : string) : bool := negb (PyStr.hidden n).

(** ** The dashboard variant *)

Module Streamlit.

Record file_types : Type := mkFileTypes {
  json_files : list string;
  md_files : list string;
  log_files : list string;
  other_files : list string;
  empty_files : list string
}.

Definition no_files : file_types := mkFileTypes [] [] [] [] [].

(** One iteration of the loop of [get_file_types]. *)
Definition categorize (ft : file_types) (item : entry) : file_types :=
  match item with
  | File file_name st_size =>
      let is_empty :=
        match st_size with
        | Some file_size => N.eqb file_size 0
        | None => false
        end in
      if PyStr.endswith (PyStr.lower file_name) ".json" then
        if is_empty
        then mkFileTypes (json_files ft) (md_files ft) (log_files ft)
               (other_files ft) (empty_files ft ++ [file_name])
        else mkFileTypes (json_files ft ++ [file_name]) (md_files ft)
               (log_files ft) (other_files ft) (empty_files ft)
      else if PyStr.endswith (PyStr.lower file_name) ".md" then
        if is_empty
        then mkFileTypes (json_files ft) (md_files ft) (log_files ft)
               (other_files ft) (empty_files ft ++ [file_name])
        else mkFileTypes (json_files ft) (md_files ft ++ [file_name])
               (log_files ft) (other_files ft) (empty_files ft)
      else if PyStr.endswith (PyStr.lower file_name) ".log" then
        if is_empty
        then mkFileTypes (json_files ft) (md_files ft) (log_files ft)
               (other_files ft) (empty_files ft ++ [file_name])
        else mkFileTypes (json_files ft) (md_files ft)
               (log_files ft ++ [file_name]) (other_files ft) (empty_files ft)
      else
        if negb (PyStr.startswith file_name ".") then
          if is_empty
          then mkFileTypes (json_files ft) (md_files ft) (log_files ft)
                 (other_files ft) (empty_files ft ++ [file_name])
          else mkFileTypes (json_files ft) (md_files ft) (log_files ft)
                 (other_files ft ++ [file_name]) (empty_files ft)
        else ft
  | _ => ft
  end.

(** [get_file_types(folder_path)] for the directory with the given listing;
    a listing that raises [PermissionError] leaves every bucket empty. *)
Definition get_file_types (listable : bool) (items : list entry)
  : file_types :=
  if listable then fold_left categorize items no_files else no_files.

Record file_counts_t : Type := mkCounts {
  c_md_files : nat;
  c_json_files : nat;
  c_log_files : nat;
  c_other_files : nat;
  c_empty_files : nat
}.

(** The FolderRecord. *)
Record folder_info : Type := mkInfo {
  path : string;
  absolute_path : string;
  file_counts : file_counts_t;
  files : file_types;
  issue : string;
  severity : string
}.

Record summary_t : Type := mkSummary {
  total_empty_folders : nat;
  total_json_only_folders : nat;
  total_folders_with_empty_files : nat;
  total_valid_folders : nat;
  total_problematic_folders : nat;
  total_scanned_folders : nat
}.

(** [self.results]; [summary = None] is the empty dictionary. *)
Record results_t : Type := mkResults {
  scan_date : option string;
  root_path : option string;
  empty_folders : list folder_info;
  json_only_folders : list folder_info;
  folders_with_empty_files : list folder_info;
  valid_folders : list folder_info;
  summary : option summary_t
}.

(** The detector: its results and the messages passed to [st.error]. *)
Record detector : Type := mkDetector {
  results : results_t;
  st_errors : list string
}.

Definition init_results : results_t :=
  mkResults None None [] [] [] [] None.

Definition check_leaf_folder (r : results_t) (folder_path : Path)
  (relative_path : string) (listable : bool) (items : list entry)
  : results_t :=
  let file_types := get_file_types listable items in
  let total_files :=
    List.length (json_files file_types) + List.length (md_files file_types) +
    List.length (log_files file_types) + List.length (other_files file_types) in
  let empty_files_count := List.length (empty_files file_types) in
  let folder_info iss sev :=
    mkInfo relative_path (PyPath.str folder_path)
      (mkCounts (List.length (md_files file_types))
                (List.length (json_files file_types))
                (List.length (log_files file_types))
                (List.length (other_files file_types))
                empty_files_count)
      file_types iss sev in
  if (total_files =? 0) && (empty_files_count =? 0) then
    mkResults (scan_date r) (root_path r)
      (empty_folders r ++ [folder_info "Completely empty folder" "high"])
      (json_only_folders r) (folders_with_empty_files r) (valid_folders r)
      (summary r)
  else if (0 <? List.length (json_files file_types)) &&
          (List.length (md_files file_types) =? 0) &&
          (List.length (log_files file_types) =? 0) &&
          (List.length (other_files file_types) =? 0) &&
          (empty_files_count =? 0) then
    mkResults (scan_date r) (root_path r) (empty_folders r)
      (json_only_folders r ++
         [folder_info
            "Contains only JSON files, missing main content files (.md)"
            "high"])
      (folders_with_empty_files r) (valid_folders r) (summary r)
  else if 0 <? empty_files_count then
    let info :=
      if 0 <? List.length (md_files file_types) then
        folder_info
          ("Folder has content but contains " ++
           PyStr.of_nat empty_files_count ++ " empty file(s)")
          "medium"
      else
        folder_info
          ("No main content files, contains " ++
           PyStr.of_nat empty_files_count ++ " empty file(s)")
          "high" in
    mkResults (scan_date r) (root_path r) (empty_folders r)
      (json_only_folders r) (folders_with_empty_files r ++ [info])
      (valid_folders r) (summary r)
  else if 0 <? List.length (md_files file_types) then
    mkResults (scan_date r) (root_path r) (empty_folders r)
      (json_only_folders r) (folders_with_empty_files r)
      (valid_folders r ++ [folder_info "Valid folder with content" "none"])
      (summary r)
  else r.

(** The second walk of [scan_folder]: the directories whose pruned [dirs]
    is empty. *)
Definition leaf_dirs (top : entry) : list (list string * list entry) :=
  filter (fun y => match walk_dirs not_hidden (snd y) with
                   | [] => true
                   | _ => false
                   end)
         (os_walk not_hidden [] top).

(** [scan_folder(folder_path)], [top] being what [folder_path] resolves to.
    The first walk only fills [all_dirs], which is not used.  Every
    directory that [os.walk] yields was listed, so it is listable when
    [check_leaf_folder] lists it again, and nothing in the loop raises. *)
Definition scan_folder (r : results_t) (folder_path : Path) (top : entry)
  : results_t :=
  if PyStr.startswith (PyPath.name folder_path) "." then r
  else
    fold_left
      (fun acc current_dir =>
         check_leaf_folder acc
           (PyPath.descend folder_path (fst current_dir))
           (PyPath.str_relative (fst current_dir))
           true (snd current_dir))
      (leaf_dirs top) r.

Definition generate_summary (r : results_t) : results_t :=
  mkResults (scan_date r) (root_path r) (empty_folders r)
    (json_only_folders r) (folders_with_empty_files r) (valid_folders r)
    (Some (mkSummary
             (List.length (empty_folders r))
             (List.length (json_only_folders r))
             (List.length (folders_with_empty_files r))
             (List.length (valid_folders r))
             (List.length (empty_folders r) + List.length (json_only_folders r) +
              List.length (folders_with_empty_files r))
             (List.length (empty_folders r) + List.length (json_only_folders r) +
              List.length (folders_with_empty_files r) +
              List.length (valid_folders r)))).

(** [run_scan(selected_folder)]; [now] is [datetime.now().isoformat()]. *)
Definition run_scan (fs : filesystem) (now : string)
  (selected_folder : string) : detector :=
  let r := mkResults (Some now) (Some selected_folder) [] [] [] [] None in
  let folder_path := PyPath.of_string selected_folder in
  match fs folder_path with
  | None =>
      mkDetector r
        ["Selected folder does not exist: " ++ selected_folder]
  | Some (Dir n l items) =>
      mkDetector
        (generate_summary (scan_folder r folder_path (Dir n l items))) []
  | Some _ =>
      mkDetector r
        ["Selected path is not a directory: " ++ selected_folder]
  end.

End Streamlit.

(** ** The command-line variant *)

Module Cli.

Record file_types : Type := mkFileTypes {
  json_files : list string;
  md_files : list string;
  log_files : list string;
  other_files : list string
}.

Definition no_files : file_types := mkFileTypes [] [] [] [].

Definition categorize (ft : file_types) (item : entry) : file_types :=
  match item with
  | File file_name _ =>
      if PyStr.endswith (PyStr.lower file_name) ".json" then
        mkFileTypes (json_files ft ++ [file_name]) (md_files ft)
          (log_files ft) (other_files ft)
      else if PyStr.endswith (PyStr.lower file_name) ".md" then
        mkFileTypes (json_files ft) (md_files ft ++ [file_name])
          (log_files ft) (other_files ft)
      else if PyStr.endswith (PyStr.lower file_name) ".log" then
        mkFileTypes (json_files ft) (md_files ft)
          (log_files ft ++ [file_name]) (other_files ft)
      else
        mkFileTypes (json_files ft) (md_files ft) (log_files ft)
          (other_files ft ++ [file_name])
  | _ => ft
  end.

(** What the script prints, one constructor for each [print] call, without
    the decoration of the text.  [JsonOnlyFolder] stands for the two calls
    of the JSON-only branch, which come together: the folder line and the
    line of its JSON files.  [Rule] is the line of sixty "=" and
    [BlankRule] the same line after an empty one. *)
Inductive printed : Type :=
| WarnPermission (folder : string)
| WarnPermissionFiles (folder : string)
| EmptyFolder (relative_path : string)
| JsonOnlyFolder (relative_path : string) (jsons : list string)
| ValidFolder (relative_path : string) (md_count : nat)
| ErrNotExist (root : string)
| ErrNotDirectory (root : string)
| ScanningIn (root : string)
| Rule
| BlankRule
| SummaryHeader
| SummaryEmpty (total : nat)
| SummaryJsonOnly (total : nat)
| SummaryTotal (total : nat)
| ReportSaved.

Definition get_file_types (folder_path : Path) (listable : bool)
  (items : list entry) : file_types * list printed :=
  if listable then (fold_left categorize items no_files, [])
  else (no_files, [WarnPermissionFiles (PyPath.str folder_path)]).

Record empty_record : Type := mkEmptyRec {
  e_path : string;
  e_absolute_path : string;
  e_issue : string
}.

Record json_only_record : Type := mkJsonRec {
  j_path : string;
  j_absolute_path : string;
  j_json_files : list string;
  j_issue : string
}.

Record summary_t : Type := mkSummary {
  total_empty_folders : nat;
  total_json_only_folders : nat;
  total_problematic_folders : nat
}.

Record report_t : Type := mkReport {
  scan_date : string;
  root_path : string;
  empty_folders : list empty_record;
  json_only_folders : list json_only_record;
  summary : option summary_t
}.

(** [self.missing_files_report] and the console. *)
Record detector : Type := mkDetector {
  missing_files_report : report_t;
  console : list printed
}.

Definition say (d : detector) (out : list printed) : detector :=
  mkDetector (missing_files_report d) (console d ++ out).

(** [all(f.startswith('.') for f in l)] *)
Definition all_hidden (l : list string) : bool :=
  forallb (fun f => PyStr.startswith f ".") l.

Definition check_leaf_folder (d : detector) (folder_path : Path)
  (relative_path : string) (listable : bool) (items : list entry)
  : detector :=
  let (file_types, warned) := get_file_types folder_path listable items in
  let d := say d warned in
  let rep := missing_files_report d in
  let total_files :=
    List.length (json_files file_types) +
    List.length (md_files file_types) +
    List.length (log_files file_types) +
    (if negb (all_hidden (other_files file_types))
     then List.length (other_files file_types) else 0) in
  let non_system_other_files :=
    filter (fun f => negb (PyStr.startswith f "."))
           (other_files file_types) in
  let actual_other_files := List.length non_system_other_files in
  if (total_files =? 0) && (actual_other_files =? 0) then
    mkDetector
      (mkReport (scan_date rep) (root_path rep)
         (empty_folders rep ++
            [mkEmptyRec relative_path (PyPath.str folder_path)
               "Completely empty folder"])
         (json_only_folders rep) (summary rep))
      (console d ++ [EmptyFolder relative_path])
  else if (0 <? List.length (json_files file_types)) &&
          (List.length (md_files file_types) =? 0) &&
          (List.length (log_files file_types) =? 0) &&
          (actual_other_files =? 0) then
    mkDetector
      (mkReport (scan_date rep) (root_path rep) (empty_folders rep)
         (json_only_folders rep ++
            [mkJsonRec relative_path (PyPath.str folder_path)
               (json_files file_types)
               "Contains only JSON files, missing main content files (.md)"])
         (summary rep))
      (console d ++ [JsonOnlyFolder relative_path (json_files file_types)])
  else if 0 <? List.length (md_files file_types) then
    say d [ValidFolder relative_path (List.length (md_files file_types))]
  else d.

(** [is_leaf_folder] on a listing that succeeded. *)
Definition is_leaf_folder (items : list entry) : bool :=
  negb (existsb is_dir items).

(** [os.path.join(relative_path, name) if relative_path else name] *)
Definition join_relative (relative_path name : string) : string :=
  if String.eqb relative_path "" then name
  else if PyStr.endswith relative_path "/" then relative_path ++ name
  else relative_path ++ "/" ++ name.

(** [scan_folder(folder_path, relative_path)], [e] being the directory at
    [folder_path].  On a directory that cannot be listed [is_leaf_folder]
    warns and answers False, and the listing of the else branch raises
    again into the handler of [scan_folder]. *)
Fixpoint scan_folder (d : detector) (folder_path : Path) (e : entry)
  (relative_path : string) {struct e} : detector :=
  match e with
  | Dir _ listable items =>
      if PyStr.startswith (PyPath.name folder_path) "." then d
      else
        let current_relative :=
          join_relative relative_path (PyPath.name folder_path) in
        if listable then
          if is_leaf_folder items then
            check_leaf_folder d folder_path current_relative true items
          else
            fold_left
              (fun acc item =>
                 match item with
                 | Dir n _ _ =>
                     scan_folder acc (PyPath.child folder_path n) item
                       current_relative
                 | _ => acc
                 end) items d
        else
          say d [WarnPermission (PyPath.str folder_path);
                 WarnPermission (PyPath.str folder_path)]
  | _ => d
  end.

(** [generate_report()]: the summary and the five lines it prints; the
    file it writes in between is not modelled. *)
Definition generate_report (d : detector) : detector :=
  let rep := missing_files_report d in
  let s :=
    mkSummary
      (List.length (empty_folders rep))
      (List.length (json_only_folders rep))
      (List.length (empty_folders rep) +
       List.length (json_only_folders rep)) in
  mkDetector
    (mkReport (scan_date rep) (root_path rep) (empty_folders rep)
       (json_only_folders rep) (Some s))
    (console d ++
     [SummaryHeader;
      SummaryEmpty (total_empty_folders s);
      SummaryJsonOnly (total_json_only_folders s);
      SummaryTotal (total_problematic_folders s);
      ReportSaved]).

(** [MissingFilesDetector(root_path).run()]: the constructor fills the
    report, [run] prints its two opening lines and then tests the root. *)
Definition run (fs : filesystem) (now : string) (root : string)
  : detector :=
  let p := PyPath.of_string root in
  let d := mkDetector (mkReport now (PyPath.str p) [] [] None) [] in
  let d := say d [ScanningIn (PyPath.str p); Rule] in
  match fs p with
  | None => say d [ErrNotExist (PyPath.str p)]
  | Some (Dir n l items) =>
      generate_report
        (say (scan_folder d p (Dir n l items) "") [BlankRule])
  | Some _ => say d [ErrNotDirectory (PyPath.str p)]
  end.

End Cli.

(** ** The simplified script *)

Module Simple.

Record json_only_record : Type := mkJsonRec {
  j_path : string;
  j_json_files : list string
}.

Record results_t : Type := mkResults {
  empty_folders : list string;
  json_only_folders : list json_only_record;
  scan_date : string
}.

(** What [scan_for_missing_files] prints, one constructor for each
    [print] call; [Dashes] is the line of fifty "-". *)
Inductive printed : Type :=
| ErrNotFound (root_path : string)
| Scanning (root_path : string)
| Dashes
| Empty (relative_path : string)
| JsonOnly (relative_path : string)
| Valid (relative_path : string).

(** [f.endswith(('.json', '.md'))] *)
Definition endswith_json_or_md (f : string) : bool :=
  PyStr.endswith f ".json" || PyStr.endswith f ".md".

(** The body of the loop over [os.walk(root)] for one yielded triple. *)
Definition visit (acc : results_t * list printed)
  (y : list string * list entry) : results_t * list printed :=
  let (results, out) := acc in
  let subdirs := walk_dirs (fun _ => true) (snd y) in
  let files := walk_files (snd y) in
  match subdirs with
  | _ :: _ => acc
  | [] =>
      let relative_path := PyPath.str_relative (fst y) in
      let md_files := filter (fun f => PyStr.endswith f ".md") files in
      let json_files := filter (fun f => PyStr.endswith f ".json") files in
      let other_files :=
        filter (fun f => negb (endswith_json_or_md f) &&
                         negb (PyStr.startswith f ".")) files in
      if match files with [] => true | _ => false end
         || forallb (fun f => PyStr.startswith f ".") files then
        (mkResults (empty_folders results ++ [relative_path])
           (json_only_folders results) (scan_date results),
         (out ++ [Empty relative_path])%list)
      else if match json_files, md_files, other_files with
              | _ :: _, [], [] => true
              | _, _, _ => false
              end then
        (mkResults (empty_folders results)
           (json_only_folders results ++
              [mkJsonRec relative_path json_files])
           (scan_date results),
         (out ++ [JsonOnly relative_path])%list)
      else if match md_files with _ :: _ => true | [] => false end then
        (results, (out ++ [Valid relative_path])%list)
      else acc
  end.

(** [scan_for_missing_files(root_path)]; [os.walk] on a path that is not a
    directory yields nothing. *)
Definition scan_for_missing_files (fs : filesystem) (now : string)
  (root_path : string) : results_t * list printed :=
  let results := mkResults [] [] now in
  match fs (PyPath.of_string root_path) with
  | None => (results, [ErrNotFound root_path])
  | Some top =>
      fold_left visit (os_walk (fun _ => true) [] top)
        (results, [Scanning root_path; Dashes])
  end.

End Simple.

(** ** Vocabulary of the specification *)

Module Spec.

Import Streamlit.

(** The five buckets of the file-listing partition. *)
Inductive bucket : Type := Json | Md | Log | Other | EmptyB.

Definition bucket_eqb (a b : bucket) : bool :=
  match a, b with
  | Json, Json | Md, Md | Log, Log | Other, Other | EmptyB, EmptyB => true
  | _, _ => false
  end.

Definition bucket_list (b : bucket) (ft : file_types) : list string :=
  match b with
  | Json => json_files ft
  | Md => md_files ft
  | Log => log_files ft
  | Other => other_files ft
  | EmptyB => empty_files ft
  end.

(** A name has one of the three known extensions, whatever its case. *)
Definition known_ext (n : string) : bool :=
  PyStr.endswith (PyStr.lower n) ".json" ||
  PyStr.endswith (PyStr.lower n) ".md" ||
  PyStr.endswith (PyStr.lower n) ".log".

(** Routing by case-insensitive extension; a hidden name without a known
    extension is a system file and has no bucket. *)
Definition ext_bucket (n : string) : option bucket :=
  if PyStr.endswith (PyStr.lower n) ".json" then Some Json
  else if PyStr.endswith (PyStr.lower n) ".md" then Some Md
  else if PyStr.endswith (PyStr.lower n) ".log" then Some Log
  else if PyStr.hidden n then None
  else Some Other.

Definition zero_bytes (sz : option N) : bool :=
  match sz with
  | Some k => N.eqb k 0
  | None => false
  end.

(** The bucket of a directory entry: the size check comes before the
    extension for every file that has a bucket at all. *)
Definition route (e : entry) : option bucket :=
  match e with
  | File n sz =>
      match ext_bucket n with
      | Some b => if zero_bytes sz then Some EmptyB else Some b
      | None => None
      end
  | _ => None
  end.

Definition routed_to (b : bucket) (e : entry) : bool :=
  match route e with
  | Some b' => bucket_eqb b' b
  | None => false
  end.


(** The four category lists. *)
Inductive category : Type :=
| EmptyFolders | JsonOnlyFolders | FoldersWithEmptyFiles | ValidFolders.

Definition cat_list (c : category) (r : results_t) : list folder_info :=
  match c with
  | EmptyFolders => empty_folders r
  | JsonOnlyFolders => json_only_folders r
  | FoldersWithEmptyFiles => folders_with_empty_files r
  | ValidFolders => valid_folders r
  end.

(** Between [r] and [r'] one record of severity [sev] was appended to the
    list of category [c], and nothing else changed. *)
Definition assigned (c : category) (sev : string) (r r' : results_t)
  : Prop :=
  exists info,
    severity info = sev /\
    cat_list c r' = (cat_list c r ++ [info])%list /\
    (forall c', c' <> c -> cat_list c' r' = cat_list c' r) /\
    scan_date r' = scan_date r /\ root_path r' = root_path r /\
    summary r' = summary r.

(** The five bucket counts of a listing, as [check_leaf_folder] sees
    them. *)
Definition count (b : bucket) (listable : bool) (items : list entry)
  : nat :=
  List.length (bucket_list b (get_file_types listable items)).

(** [reaches top rel items]: going down from [top] along the names [rel],
    through directories that can be listed and whose names do not start
    with ".", ends in a directory that can be listed and lists [items]. *)
Inductive reaches : entry -> list string -> list entry -> Prop :=
| reaches_here : forall n items, reaches (Dir n true items) [] items
| reaches_down : forall n items m l sub rel its,
    In (Dir m l sub) items ->
    PyStr.hidden m = false ->
    reaches (Dir m l sub) rel its ->
    reaches (Dir n true items) (m :: rel) its.

(** A leaf: no subdirectory once the hidden ones are set aside. *)
Definition leaf_listing (items : list entry) : Prop :=
  forall m l sub, In (Dir m l sub) items -> PyStr.hidden m = true.

(** The classification pass over a list of directories. *)
Definition classify_all (r : results_t) (folder_path : Path)
  (dirs : list (list string * list entry)) : results_t :=
  fold_left
    (fun acc current_dir =>
       check_leaf_folder acc
         (PyPath.descend folder_path (fst current_dir))
         (PyPath.str_relative (fst current_dir))
         true (snd current_dir))
    dirs r.

(** No two entries of one directory share a name, at every level. *)
Fixpoint unique_names (e : entry) : Prop :=
  match e with
  | Dir _ _ items =>
      NoDup (map entry_name items) /\
      (fix all (xs : list entry) : Prop :=
         match xs with
         | [] => True
         | x :: xs' => unique_names x /\ all xs'
         end) items
  | _ => True
  end.

End Spec.

(** ** The presentation layer of the dashboard *)

Module Dashboard.

Import Streamlit.

(** [sub in s] for strings: [sub] occurs in [s]. *)
Fixpoint contains (s sub : string) : bool :=
  String.prefix sub s ||
  match s with
  | EmptyString => false
  | String _ s' => contains s' sub
  end.

(** The four status badges of [display_folder_details]. *)
Inductive status : Type := Valid | Critical | Issues | Unknown.

(** The status indicator of [display_folder_details] (the second column).
    Every record carries its [severity] key, so the default of [get] is
    never used.  [issue.lower()] is the byte-wise [PyStr.lower]: no
    non-ASCII code point lower-cases into "empty file". *)
Definition status_indicator (folder : folder_info) : status :=
  let severity := severity folder in
  let issue := issue folder in
  if String.eqb severity "none" || contains issue "Valid folder" then Valid
  else if String.eqb severity "high"
          || contains (PyStr.lower issue) "empty"
          || contains issue "only JSON" then Critical
  else if String.eqb severity "medium"
          || contains (PyStr.lower issue) "empty file" then Issues
  else Unknown.

(** One row of the CSV report, before pandas renders it. *)
Record csv_row : Type := mkRow {
  col_path : string;
  col_issue_type : string;
  col_severity : string;
  col_issue : string;
  col_md_files : nat;
  col_json_files : nat;
  col_empty_files : nat
}.

Definition row_of (issue_type : string) (folder : folder_info) : csv_row :=
  mkRow (path folder) issue_type (severity folder) (issue folder)
    (c_md_files (file_counts folder))
    (c_json_files (file_counts folder))
    (c_empty_files (file_counts folder)).

(** [problematic_data] as [main] builds it: three loops, in this order. *)
Definition problematic_data (results : results_t) : list csv_row :=
  (map (row_of "Empty Folder") (empty_folders results) ++
   map (row_of "JSON-Only Folder") (json_only_folders results) ++
   map (row_of "Empty Files Issue") (folders_with_empty_files results))%list.

(** What the CSV part of [main] does with the results. *)
Inductive csv_outcome : Type :=
| KeyError
| NoDownload
| Download (rows : list csv_row).

(** The CSV report of [main]: read
    [results['summary']['total_problematic_folders']], which raises
    [KeyError] on the empty summary, and offer the rows when it is
    positive. *)
Definition csv_report (results : results_t) : csv_outcome :=
  match summary results with
  | None => KeyError
  | Some s =>
      if 0 <? total_problematic_folders s
      then Download (problematic_data results)
      else NoDownload
  end.

(** The numbers [create_visualizations] puts on the page. *)
Record charts : Type := mkCharts {
  metrics : list (string * nat);
  pie_values : list nat;
  bar_values : list nat
}.

(** [create_visualizations(results)]: [None] is the [KeyError] of
    [summary['total_scanned_folders']] on the empty summary. *)
Definition create_visualizations (results : results_t) : option charts :=
  match summary results with
  | None => None
  | Some s =>
      Some (mkCharts
              [("Total Scanned", total_scanned_folders s);
               ("Empty Folders", total_empty_folders s);
               ("JSON-Only Folders", total_json_only_folders s);
               ("Empty Files Issues", total_folders_with_empty_files s);
               ("Valid Folders", total_valid_folders s)]
              [total_empty_folders s; total_json_only_folders s;
               total_folders_with_empty_files s; total_valid_folders s]
              [total_empty_folders s; total_json_only_folders s;
               total_folders_with_empty_files s])
  end.

End Dashboard.

(** ** The structure report of an uploaded archive *)

Module Zip.

(** A Python [dict] from strings to counts, in insertion order. *)
Definition dict : Type := list (string * nat).

(** [d.get(k, default)] *)
Fixpoint dict_get (d : dict) (k : string) (default : nat) : nat :=
  match d with
  | [] => default
  | (k', v) :: d' => if String.eqb k' k then v else dict_get d' k default
  end.

(** [d[k] = v]: an existing key keeps its place, a new one goes last. *)
Fixpoint dict_set (d : dict) (k : string) (v : nat) : dict :=
  match d with
  | [] => [(k, v)]
  | (k', v') :: d' =>
      if String.eqb k' k then (k, v) :: d' else (k', v') :: dict_set d' k v
  end.

Record structure_info : Type := mkInfo {
  total_files : nat;
  total_folders : nat;
  file_types : dict;
  folder_structure : list string
}.

Definition empty_info : structure_info := mkInfo 0 0 [] [].

Section Extract.

(** [Path(file_name).suffix.lower()], which is pathlib's. *)
Variable suffix_lower : string -> string.

(** Whether [zip_ref.extract(file_name, extract_dir)] returns; it raises
    otherwise. *)
Variable extracts : string -> bool.

(** The "Analyze structure" part of the loop of [extract_zip_file], for
    one member of the archive. *)
Definition analyze (info : structure_info) (file_name : string)
  : structure_info :=
  if PyStr.endswith file_name "/" then
    mkInfo (total_files info) (total_folders info + 1) (file_types info)
      (folder_structure info ++ [file_name])
  else
    let suffix := suffix_lower file_name in
    if negb (String.eqb suffix "") then
      mkInfo (total_files info + 1) (total_folders info)
        (dict_set (file_types info) suffix
           (dict_get (file_types info) suffix 0 + 1))
        (folder_structure info)
    else
      mkInfo (total_files info + 1) (total_folders info)
        (dict_set (file_types info) "no_extension"
           (dict_get (file_types info) "no_extension" 0 + 1))
        (folder_structure info).

(** The structure part of the result of [extract_zip_file].  [namelist]
    is [zip_ref.namelist()], or [None] when the upload cannot be saved or
    opened as an archive; an exception anywhere ends in
    [return None, None]. *)
Definition extract_zip_file (namelist : option (list string))
  : option structure_info :=
  match namelist with
  | None => None
  | Some file_list =>
      if forallb extracts file_list
      then Some (fold_left analyze file_list empty_info)
      else None
  end.

End Extract.

End Zip.

(** ** Vocabulary for the scan results *)

Module Audit.

Import Streamlit Spec.

(** The category the decision policy gives a listing, from its five
    counts; [None] when no branch applies. *)
Definition category_of (items : list entry) : option category :=
  let j := count Json true items in
  let m := count Md true items in
  let g := count Log true items in
  let o := count Other true items in
  let e := count EmptyB true items in
  if (j + m + g + o =? 0) && (e =? 0) then Some EmptyFolders
  else if (0 <? j) && (m =? 0) && (g =? 0) && (o =? 0) && (e =? 0)
  then Some JsonOnlyFolders
  else if 0 <? e then Some FoldersWithEmptyFiles
  else if 0 <? m then Some ValidFolders
  else None.

Definition category_eqb (a b : category) : bool :=
  match a, b with
  | EmptyFolders, EmptyFolders
  | JsonOnlyFolders, JsonOnlyFolders
  | FoldersWithEmptyFiles, FoldersWithEmptyFiles
  | ValidFolders, ValidFolders => true
  | _, _ => false
  end.

Definition in_category (c : category) (y : list string * list entry)
  : bool :=
  match category_of (snd y) with
  | Some c' => category_eqb c' c
  | None => false
  end.

Definition categorized (y : list string * list entry) : bool :=
  match category_of (snd y) with
  | Some _ => true
  | None => false
  end.

(** The counts of a record are the lengths of its file lists. *)
Definition counts_match (i : folder_info) : Prop :=
  c_md_files (file_counts i) = List.length (md_files (files i)) /\
  c_json_files (file_counts i) = List.length (json_files (files i)) /\
  c_log_files (file_counts i) = List.length (log_files (files i)) /\
  c_other_files (file_counts i) = List.length (other_files (files i)) /\
  c_empty_files (file_counts i) = List.length (empty_files (files i)).

(** What a record of each list looks like. *)
Definition record_ok (c : category) (i : folder_info) : Prop :=
  counts_match i /\
  match c with
  | EmptyFolders =>
      severity i = "high" /\ issue i = "Completely empty folder" /\
      file_counts i = mkCounts 0 0 0 0 0
  | JsonOnlyFolders =>
      severity i = "high" /\
      issue i =
        "Contains only JSON files, missing main content files (.md)" /\
      0 < c_json_files (file_counts i) /\
      c_md_files (file_counts i) = 0 /\
      c_log_files (file_counts i) = 0 /\
      c_other_files (file_counts i) = 0 /\
      c_empty_files (file_counts i) = 0
  | FoldersWithEmptyFiles =>
      0 < c_empty_files (file_counts i) /\
      ((0 < c_md_files (file_counts i) /\ severity i = "medium" /\
        issue i =
          "Folder has content but contains " ++
          PyStr.of_nat (c_empty_files (file_counts i)) ++
          " empty file(s)") \/
       (c_md_files (file_counts i) = 0 /\ severity i = "high" /\
        issue i =
          "No main content files, contains " ++
          PyStr.of_nat (c_empty_files (file_counts i)) ++
          " empty file(s)"))
  | ValidFolders =>
      severity i = "none" /\ issue i = "Valid folder with content" /\
      0 < c_md_files (file_counts i) /\
      c_empty_files (file_counts i) = 0
  end.

(** The record is the one of the directory [rel] below the root. *)
Definition record_of (folder_path : Path) (y : list string * list entry)
  (i : folder_info) : Prop :=
  path i = PyPath.str_relative (fst y) /\
  absolute_path i = PyPath.str (PyPath.descend folder_path (fst y)) /\
  files i = get_file_types true (snd y).

(** The character occurs in the string. *)
Fixpoint occurs (c : ascii) (s : string) : bool :=
  match s with
  | EmptyString => false
  | String a s' => Ascii.eqb a c || occurs c s'
  end.

(** What a row of the CSV report looks like, by its issue type. *)
Definition row_ok (row : Dashboard.csv_row) : Prop :=
  (Dashboard.col_issue_type row = "Empty Folder" /\
   Dashboard.col_severity row = "high" /\
   Dashboard.col_md_files row = 0 /\
   Dashboard.col_json_files row = 0 /\
   Dashboard.col_empty_files row = 0) \/
  (Dashboard.col_issue_type row = "JSON-Only Folder" /\
   Dashboard.col_severity row = "high" /\
   Dashboard.col_md_files row = 0 /\
   0 < Dashboard.col_json_files row /\
   Dashboard.col_empty_files row = 0) \/
  (Dashboard.col_issue_type row = "Empty Files Issue" /\
   0 < Dashboard.col_empty_files row /\
   ((0 < Dashboard.col_md_files row /\
     Dashboard.col_severity row = "medium") \/
    (Dashboard.col_md_files row = 0 /\
     Dashboard.col_severity row = "high"))).

(** The key under which the structure report counts a member. *)
Definition type_key (suffix_lower : string -> string) (file_name : string)
  : string :=
  if String.eqb (suffix_lower file_name) "" then "no_extension"
  else suffix_lower file_name.

Definition is_folder_member (file_name : string) : bool :=
  PyStr.endswith file_name "/".

(** A file member counted under the key [k]. *)
Definition counted_as (suffix_lower : string -> string) (k : string)
  (file_name : string) : bool :=
  negb (is_folder_member file_name) &&
  String.eqb (type_key suffix_lower file_name) k.

(** No file of the listing is known to have zero bytes. *)
Definition no_zero_bytes (items : list entry) : bool :=
  forallb (fun e => match e with
                    | File _ sz => negb (zero_bytes sz)
                    | _ => true
                    end) items.

(** The bucket of a file for the command-line script: by extension only,
    hidden or not. *)
Definition cli_bucket (n : string) : bucket :=
  if PyStr.endswith (PyStr.lower n) ".json" then Json
  else if PyStr.endswith (PyStr.lower n) ".md" then Md
  else if PyStr.endswith (PyStr.lower n) ".log" then Log
  else Other.

Definition cli_routed (b : bucket) (e : entry) : bool :=
  match e with
  | File n _ => bucket_eqb (cli_bucket n) b
  | _ => false
  end.

Definition cli_bucket_list (b : bucket) (ft : Cli.file_types)
  : list string :=
  match b with
  | Json => Cli.json_files ft
  | Md => Cli.md_files ft
  | Log => Cli.log_files ft
  | Other => Cli.other_files ft
  | EmptyB => []
  end.

(** The command-line detector after it reported an empty folder. *)
Definition cli_flag_empty (d : Cli.detector) (folder_path : Path)
  (relative_path : string) : Cli.detector :=
  let rep := Cli.missing_files_report d in
  Cli.mkDetector
    (Cli.mkReport (Cli.scan_date rep) (Cli.root_path rep)
       (Cli.empty_folders rep ++
          [Cli.mkEmptyRec relative_path (PyPath.str folder_path)
             "Completely empty folder"])
       (Cli.json_only_folders rep) (Cli.summary rep))
    (Cli.console d ++ [Cli.EmptyFolder relative_path]).

(** The command-line detector after it reported a JSON-only folder. *)
Definition cli_flag_json_only (d : Cli.detector) (folder_path : Path)
  (relative_path : string) (jsons : list string) : Cli.detector :=
  let rep := Cli.missing_files_report d in
  Cli.mkDetector
    (Cli.mkReport (Cli.scan_date rep) (Cli.root_path rep)
       (Cli.empty_folders rep)
       (Cli.json_only_folders rep ++
          [Cli.mkJsonRec relative_path (PyPath.str folder_path) jsons
             "Contains only JSON files, missing main content files (.md)"])
       (Cli.summary rep))
    (Cli.console d ++ [Cli.JsonOnlyFolder relative_path jsons]).

(** What the command-line walker does, in order: the directories it hands
    to its classifier and the directories it cannot list. *)
Inductive cli_visit : Type :=
| CliLeaf (folder_path : Path) (relative_path : string)
          (items : list entry)
| CliDenied (folder_path : Path).

Fixpoint cli_visits (folder_path : Path) (e : entry)
  (relative_path : string) {struct e} : list cli_visit :=
  match e with
  | Dir _ listable items =>
      if PyStr.startswith (PyPath.name folder_path) "." then []
      else
        let current_relative :=
          Cli.join_relative relative_path (PyPath.name folder_path) in
        if listable then
          if Cli.is_leaf_folder items then
            [CliLeaf folder_path current_relative items]
          else
            flat_map
              (fun item =>
                 match item with
                 | Dir n _ _ =>
                     cli_visits (PyPath.child folder_path n) item
                       current_relative
                 | _ => []
                 end) items
        else [CliDenied folder_path]
  | _ => []
  end.

Definition cli_apply (d : Cli.detector) (v : cli_visit) : Cli.detector :=
  match v with
  | CliLeaf folder_path relative_path items =>
      Cli.check_leaf_folder d folder_path relative_path true items
  | CliDenied folder_path =>
      Cli.say d [Cli.WarnPermission (PyPath.str folder_path);
                 Cli.WarnPermission (PyPath.str folder_path)]
  end.

(** The folders the command-line script announced as empty, and as
    JSON-only with their JSON files, in printing order. *)
Definition printed_empty (out : list Cli.printed) : list string :=
  flat_map (fun line => match line with
                        | Cli.EmptyFolder rel => [rel]
                        | _ => []
                        end) out.

Definition printed_json_only (out : list Cli.printed)
  : list (string * list string) :=
  flat_map (fun line => match line with
                        | Cli.JsonOnlyFolder rel jsons => [(rel, jsons)]
                        | _ => []
                        end) out.

(** The console and the report of a command-line detector tell the same
    story. *)
Definition console_matches_report (d : Cli.detector) : Prop :=
  printed_empty (Cli.console d) =
    map Cli.e_path (Cli.empty_folders (Cli.missing_files_report d)) /\
  printed_json_only (Cli.console d) =
    map (fun j => (Cli.j_path j, Cli.j_json_files j))
        (Cli.json_only_folders (Cli.missing_files_report d)).

(** Every path the simplified script has reported is the relative path
    of one of the [walked] directories, one without subdirectories. *)
Definition reported_leaves (walked : list (list string * list entry))
  (acc : Simple.results_t * list Simple.printed) : Prop :=
  forall path,
    In path (Simple.empty_folders (fst acc)) \/
    In path (map Simple.j_path (Simple.json_only_folders (fst acc))) ->
    exists rel items,
      In (rel, items) walked /\ existsb is_dir items = false /\
      path = PyPath.str_relative rel.

End Audit.

(** ** Sample inputs *)

(** The scenario of the specification: four leaves under the root, one of
    each category, and a hidden root next to it. *)
Definition sample_tree : entry :=
  Dir "textData" true
    [Dir "A" true [];
     Dir "B" true [File "notes.md" (Some 10%N)];
     Dir "C" true [File "meta.json" (Some 5%N)];
     Dir "D" true [File "notes.md" (Some 10%N); File "draft.md" (Some 0%N)]].

Definition sample_fs : filesystem :=
  fun p => if String.eqb (PyPath.str p) "textData" then Some sample_tree
           else if String.eqb (PyPath.str p) "textData/B/notes.md"
                then Some (File "notes.md" (Some 10%N))
                else None.

Definition hidden_root : entry := Dir ".cache" true [].

(** A root with one leaf that only holds a log file. *)
Definition logs_tree : entry :=
  Dir "textData" true [Dir "run1" true [File "app.log" (Some 12%N)]].

(** A directory whose only subdirectory is hidden, holding one markdown
    file. *)
Definition repo_tree : entry :=
  Dir "notes" true
    [Dir ".git" true [Dir "objects" true []];
     File "index.md" (Some 42%N)].

(** The scenario with a fifth leaf that only holds a log file, and a
    hidden directory beside the leaves. *)
Definition mixed_tree : entry :=
  Dir "textData" true
    [Dir "A" true [];
     Dir "B" true [File "notes.md" (Some 10%N)];
     Dir "C" true [File "meta.json" (Some 5%N)];
     Dir "D" true [File "notes.md" (Some 10%N); File "draft.md" (Some 0%N)];
     Dir "E" true [File "app.log" (Some 12%N)];
     Dir ".git" true [Dir "objects" true []]].

Definition mixed_fs : filesystem :=
  fun p => if String.eqb (PyPath.str p) "textData" then Some mixed_tree
           else None.

(** A stand-in for pathlib's suffix on the names of [sample_archive]. *)
Definition sample_suffix (file_name : string) : string :=
  if PyStr.endswith (PyStr.lower file_name) ".md" then ".md"
  else if PyStr.endswith (PyStr.lower file_name) ".json" then ".json"
  else "".

Definition sample_archive : list string :=
  ["docs/"; "docs/a.md"; "docs/B.MD"; "docs/meta.json"; "docs/LICENSE";
   "docs/img/"].

(** A command-line detector before its scan. *)
Definition cli_start : Cli.detector :=
  Cli.mkDetector
    (Cli.mkReport "2024-01-01T00:00:00" "textData" [] [] None) [].

(** Closes a goal [assigned c sev r r'] once [r'] is a record built from
    [r]. *)
Ltac appended :=
  eexists; repeat split; simpl; try reflexivity;
  let c := fresh "c" in
  let H := fresh "H" in
  intros c H; destruct c; simpl; congruence.

(** ** Suffix tests *)

Lemma endswith_unfold (s suf : string) :
  PyStr.endswith s suf =
  String.eqb s suf ||
  match s with
  | EmptyString => false
  | String _ s' => PyStr.endswith s' suf
  end.
Proof. destruct s; reflexivity. Qed.

Lemma endswith_append (pre suf : string) :
  PyStr.endswith (pre ++ suf) suf = true.
Proof.
  induction pre as [|c pre IH]; simpl.
  - rewrite endswith_unfold, String.eqb_refl. reflexivity.
  - rewrite IH. apply orb_true_r.
Qed.

Lemma endswith_split (s suf : string) :
  PyStr.endswith s suf = true -> exists pre, s = pre ++ suf.
Proof.
  induction s as [|c s IH]; rewrite endswith_unfold; intros H.
  - apply orb_true_iff in H as [H|H]; [|discriminate].
    apply String.eqb_eq in H. exists "". now rewrite <- H.
  - apply orb_true_iff in H as [H|H].
    + apply String.eqb_eq in H. exists "". now rewrite <- H.
    + destruct (IH H) as [pre ->]. now exists (String c pre).
Qed.


(** ** The partition of a listing *)

Import Streamlit Spec.

Lemma bucket_eqb_eq (a b : bucket) : bucket_eqb a b = true <-> a = b.
Proof. destruct a, b; simpl; split; congruence. Qed.

(** One step of the loop appends the name of the entry to the bucket the
    entry is routed to, and to no other. *)
Lemma categorize_bucket (b : bucket) (ft : file_types) (e : entry) :
  bucket_list b (categorize ft e) =
  (bucket_list b ft ++ (if routed_to b e then [entry_name e] else []))%list.
Proof.
  destruct e as [n sz| |]; simpl;
    try (unfold routed_to; simpl; now rewrite app_nil_r).
  unfold routed_to, route, ext_bucket, PyStr.hidden, zero_bytes.
  destruct (PyStr.endswith (PyStr.lower n) ".json");
    [|destruct (PyStr.endswith (PyStr.lower n) ".md");
      [|destruct (PyStr.endswith (PyStr.lower n) ".log");
        [|destruct (PyStr.startswith n ".")]]];
    simpl;
    try (destruct sz as [k|]; [destruct (N.eqb k 0)|]);
    destruct b; simpl; now rewrite ?app_nil_r.
Qed.

Lemma fold_categorize_bucket (b : bucket) (items : list entry) :
  forall ft,
    bucket_list b (fold_left categorize items ft) =
    (bucket_list b ft ++ map entry_name (filter (routed_to b) items))%list.
Proof.
  induction items as [|e items IH]; intros ft; simpl.
  - now rewrite app_nil_r.
  - rewrite IH, categorize_bucket.
    destruct (routed_to b e); simpl.
    + now rewrite <- app_assoc.
    + now rewrite app_nil_r.
Qed.

(** Each bucket of [get_file_types] is the listing filtered by [route],
    in listing order. *)
Lemma get_file_types_bucket (b : bucket) (items : list entry) :
  bucket_list b (get_file_types true items) =
  map entry_name (filter (routed_to b) items).
Proof.
  unfold get_file_types. rewrite fold_categorize_bucket.
  destruct b; reflexivity.
Qed.

Lemma get_file_types_unlistable (items : list entry) :
  get_file_types false items = no_files.
Proof. reflexivity. Qed.





(** ** The decision table of the classifier *)

(** [check_leaf_folder] branch by branch, in terms of the five counts. *)
Lemma check_leaf_folder_table (r : results_t) (folder_path : Path)
  (relative_path : string) (listable : bool) (items : list entry) :
  let r' := check_leaf_folder r folder_path relative_path listable items in
  let j := count Json listable items in
  let m := count Md listable items in
  let g := count Log listable items in
  let o := count Other listable items in
  let e := count EmptyB listable items in
  (j + m + g + o = 0 /\ e = 0 /\ assigned EmptyFolders "high" r r') \/
  (0 < j /\ m = 0 /\ g = 0 /\ o = 0 /\ e = 0 /\
   assigned JsonOnlyFolders "high" r r') \/
  (0 < e /\ 0 < m /\ assigned FoldersWithEmptyFiles "medium" r r') \/
  (0 < e /\ m = 0 /\ assigned FoldersWithEmptyFiles "high" r r') \/
  (e = 0 /\ 0 < m /\ assigned ValidFolders "none" r r') \/
  (e = 0 /\ m = 0 /\ 0 < g + o /\ r' = r).
Proof.
  unfold check_leaf_folder, count; simpl.
  set (ft := get_file_types listable items).
  destruct (Nat.eqb_spec
              (List.length (json_files ft) + List.length (md_files ft) +
               List.length (log_files ft) + List.length (other_files ft)) 0)
    as [Ht|Ht];
  destruct (Nat.eqb_spec (List.length (empty_files ft)) 0) as [He|He];
  simpl.
  - left. repeat split; try lia. appended.
  - right; right.
    destruct (Nat.ltb_spec 0 (List.length (json_files ft))); [lia|].
    simpl.
    destruct (Nat.ltb_spec 0 (List.length (empty_files ft))); [|lia].
    destruct (Nat.ltb_spec 0 (List.length (md_files ft))); [lia|].
    right; left. repeat split; try lia. appended.
  - destruct (Nat.ltb_spec 0 (List.length (json_files ft))) as [Hj|Hj];
    destruct (Nat.eqb_spec (List.length (md_files ft)) 0) as [Hm|Hm];
    destruct (Nat.eqb_spec (List.length (log_files ft)) 0) as [Hg|Hg];
    destruct (Nat.eqb_spec (List.length (other_files ft)) 0) as [Ho|Ho];
    simpl;
    try (right; left; repeat split; try lia; appended);
    (destruct (Nat.ltb_spec 0 (List.length (empty_files ft))); [lia|]);
    (destruct (Nat.ltb_spec 0 (List.length (md_files ft))) as [Hm'|Hm'];
     [ do 4 right; left; repeat split; try lia; appended
     | do 5 right; repeat split; try lia ]).
  - destruct (Nat.ltb_spec 0 (List.length (json_files ft))) as [Hj|Hj];
    destruct (Nat.eqb_spec (List.length (md_files ft)) 0) as [Hm|Hm];
    destruct (Nat.eqb_spec (List.length (log_files ft)) 0) as [Hg|Hg];
    destruct (Nat.eqb_spec (List.length (other_files ft)) 0) as [Ho|Ho];
    simpl;
    (destruct (Nat.ltb_spec 0 (List.length (empty_files ft))); [|lia]);
    (destruct (Nat.ltb_spec 0 (List.length (md_files ft))) as [Hm'|Hm'];
     [ do 2 right; left; repeat split; try lia; appended
     | do 3 right; left; repeat split; try lia; appended ]).
Qed.

(** A record lands in one list only: two descriptions of the same step
    name the same category. *)
Lemma assigned_same_category (c c' : category) (sev sev' : string)
  (r r' : results_t) :
  assigned c sev r r' -> assigned c' sev' r r' -> c = c'.
Proof.
  intros (i & _ & Hc & Hother & _) (i' & _ & Hc' & _).
  destruct c, c'; try reflexivity;
    match goal with
    | |- ?a = ?b =>
        assert (Hne : b <> a) by discriminate;
        specialize (Hother b Hne); rewrite Hother in Hc';
        apply (f_equal (@List.length _)) in Hc';
        rewrite length_app in Hc'; simpl in Hc'; lia
    end.
Qed.

Lemma assigned_changes (c : category) (sev : string) (r r' : results_t) :
  assigned c sev r r' -> r' <> r.
Proof.
  intros (i & _ & Hc & _) ->.
  apply (f_equal (@List.length _)) in Hc.
  rewrite length_app in Hc. simpl in Hc. lia.
Qed.


Lemma hidden_unknown_unrouted (n : string) (sz : option N) :
  PyStr.hidden n = true -> known_ext n = false -> route (File n sz) = None.
Proof.
  unfold known_ext, route, ext_bucket. intros Hh Hk.
  apply orb_false_iff in Hk as [Hk Hlog].
  apply orb_false_iff in Hk as [Hjson Hmd].
  now rewrite Hjson, Hmd, Hlog, Hh.
Qed.

(** ** The classifier, claim by claim *)













(** Every call appends at most one record, to at most one list. *)
Lemma check_leaf_folder_at_most_one (r : results_t) (folder_path : Path)
  (relative_path : string) (listable : bool) (items : list entry) :
  let r' := check_leaf_folder r folder_path relative_path listable items in
  r' = r \/
  exists c sev,
    assigned c sev r r' /\
    forall c' sev', assigned c' sev' r r' -> c' = c.
Proof.
  intros r'.
  destruct (check_leaf_folder_table r folder_path relative_path
              listable items)
    as [(_ & _ & A)|[(_ & _ & _ & _ & _ & A)|[(_ & _ & A)|[(_ & _ & A)|
        [(_ & _ & A)|(_ & _ & _ & E)]]]]];
    [right| right | right | right | right | left; exact E];
    do 2 eexists; (split; [exact A|]);
    intros c' sev' A'; exact (assigned_same_category _ _ _ _ _ _ A' A).
Qed.

(** The folders that reach no list: no markdown file with content, nothing
    in the empty bucket, and a log file or some other file. *)
Lemma check_leaf_folder_dropped_iff (r : results_t) (folder_path : Path)
  (relative_path : string) (listable : bool) (items : list entry) :
  check_leaf_folder r folder_path relative_path listable items = r <->
  count EmptyB listable items = 0 /\ count Md listable items = 0 /\
  0 < count Log listable items + count Other listable items.
Proof.
  destruct (check_leaf_folder_table r folder_path relative_path
              listable items)
    as [(? & ? & A)|[(? & ? & ? & ? & ? & A)|[(? & ? & A)|[(? & ? & A)|
        [(? & ? & A)|(? & ? & ? & E)]]]]];
    try (split; [intros E; now apply assigned_changes in A | lia]).
  split; [lia | intros _; exact E].
Qed.

(** C1, at the failing input.  A leaf directory that holds one log file
    with content is left out of all four lists: the results are returned
    unchanged. *)
Theorem log_only_folder_reaches_no_list (r : results_t)
  (folder_path : Path) (relative_path : string) :
  check_leaf_folder r folder_path relative_path true
    [File "app.log" (Some 12%N)] = r.
Proof. destruct r; reflexivity. Qed.

(** C6, as amended.  Each bucket is the listing filtered by [route], in
    listing order, so a file is in at most one bucket; the files without a
    bucket are the hidden ones without a known extension; among the others
    a zero-byte file goes to the empty bucket whatever its extension, and a
    file with content goes by its case-insensitive extension. *)
Theorem listing_partition (items : list entry) :
  (forall b, bucket_list b (get_file_types true items) =
             map entry_name (filter (routed_to b) items)) /\
  (forall e b b', routed_to b e = true -> routed_to b' e = true -> b = b') /\
  (forall n sz, route (File n sz) = None <->
                PyStr.startswith n "." = true /\ known_ext n = false) /\
  (forall n sz, route (File n sz) <> None -> zero_bytes sz = true ->
                route (File n sz) = Some EmptyB) /\
  (forall n sz, zero_bytes sz = false ->
                route (File n sz) = ext_bucket n) /\
  (forall e, is_file e = false -> route e = None).
Proof.
  split; [intros b; apply get_file_types_bucket|].
  split.
  { intros e b b'. unfold routed_to. destruct (route e) as [k|]; [|discriminate].
    intros H H'. apply bucket_eqb_eq in H, H'. congruence. }
  split.
  { intros n sz. split.
    - unfold route, ext_bucket, known_ext, PyStr.hidden.
      destruct (PyStr.endswith (PyStr.lower n) ".json");
        [destruct (zero_bytes sz); discriminate|].
      destruct (PyStr.endswith (PyStr.lower n) ".md");
        [destruct (zero_bytes sz); discriminate|].
      destruct (PyStr.endswith (PyStr.lower n) ".log");
        [destruct (zero_bytes sz); discriminate|].
      destruct (PyStr.startswith n ".");
        [auto | destruct (zero_bytes sz); discriminate].
    - intros [Hh Hk]. now apply hidden_unknown_unrouted. }
  split.
  { intros n sz Hr Hz. unfold route in *.
    destruct (ext_bucket n); [now rewrite Hz | congruence]. }
  split.
  { intros n sz Hz. unfold route. rewrite Hz. now destruct (ext_bucket n). }
  intros [n sz| |] H; [discriminate|reflexivity..].
Qed.

(** C6, as stated, fails: a zero-byte hidden file without a known
    extension is in no bucket, the empty bucket included. *)
Lemma hidden_zero_byte_file_has_no_bucket :
  ~ (forall (items : list entry) (n : string) (sz : option N),
        In (File n sz) items ->
        (exists b, In n (bucket_list b (get_file_types true items))) /\
        (zero_bytes sz = true ->
         In n (empty_files (get_file_types true items)))).
Proof.
  intros H.
  destruct (H [File ".DS_Store" (Some 0%N)] ".DS_Store" (Some 0%N)
              (or_introl eq_refl)) as [_ He].
  exact (He eq_refl).
Qed.

(** ** The scan as a whole *)

Lemma generate_summary_lists (c : category) (r : results_t) :
  cat_list c (generate_summary r) = cat_list c r.
Proof. destruct c; reflexivity. Qed.

(** C7. After a completed scan the summary holds the lengths of the four
    lists of the returned results, [total_scanned_folders] is the sum of
    the four and [total_problematic_folders] the sum of the three that are
    not [valid_folders]. *)
Theorem summary_totals (fs : filesystem) (now selected_folder : string)
  (n : string) (l : bool) (items : list entry) :
  fs (PyPath.of_string selected_folder) = Some (Dir n l items) ->
  let r := results (run_scan fs now selected_folder) in
  exists s,
    summary r = Some s /\
    total_empty_folders s = List.length (empty_folders r) /\
    total_json_only_folders s = List.length (json_only_folders r) /\
    total_folders_with_empty_files s =
      List.length (folders_with_empty_files r) /\
    total_valid_folders s = List.length (valid_folders r) /\
    total_scanned_folders s =
      List.length (empty_folders r) + List.length (json_only_folders r) +
      List.length (folders_with_empty_files r) +
      List.length (valid_folders r) /\
    total_problematic_folders s =
      List.length (empty_folders r) + List.length (json_only_folders r) +
      List.length (folders_with_empty_files r).
Proof.
  intros Hfs. unfold run_scan. rewrite Hfs. simpl.
  eexists. repeat split.
Qed.

Lemma summary_totals_witness :
  exists s,
    summary (results (run_scan sample_fs "2024-01-01T00:00:00" "textData"))
      = Some s /\
    total_scanned_folders s = 4 /\ total_problematic_folders s = 3.
Proof.
  destruct (summary_totals sample_fs "2024-01-01T00:00:00" "textData"
              "textData" true
              [Dir "A" true [];
               Dir "B" true [File "notes.md" (Some 10%N)];
               Dir "C" true [File "meta.json" (Some 5%N)];
               Dir "D" true [File "notes.md" (Some 10%N);
                             File "draft.md" (Some 0%N)]]
              eq_refl)
    as (s & Hs & _ & _ & _ & _ & Hscan & Hprob).
  exists s. split; [exact Hs|]. split; [exact Hscan | exact Hprob].
Defined.

(** The dashboard scan on a root that does not exist, or exists and is
    not a directory: it reports the error through [st.error] and returns
    results whose four lists are empty, without a summary. *)
Theorem missing_root_gives_empty_report (fs : filesystem)
  (now selected_folder : string) :
  fs (PyPath.of_string selected_folder) = None \/
  (exists e, fs (PyPath.of_string selected_folder) = Some e /\
             is_dir e = false) ->
  let d := run_scan fs now selected_folder in
  (forall c, cat_list c (results d) = []) /\
  summary (results d) = None /\
  root_path (results d) = Some selected_folder /\
  st_errors d =
    [match fs (PyPath.of_string selected_folder) with
     | Some _ => "Selected path is not a directory: "
     | None => "Selected folder does not exist: "
     end ++ selected_folder].
Proof.
  intros [H|(e & H & He)]; unfold run_scan; rewrite H.
  - repeat split. intros c; destruct c; reflexivity.
  - destruct e; try discriminate;
      (repeat split; intros c; destruct c; reflexivity).
Qed.

Lemma missing_root_gives_empty_report_witness :
  (forall c, cat_list c
               (results (run_scan sample_fs "2024-01-01T00:00:00"
                           "nowhere")) = []) /\
  st_errors (run_scan sample_fs "2024-01-01T00:00:00" "textData/B/notes.md")
    = ["Selected path is not a directory: textData/B/notes.md"].
Proof.
  split.
  - apply (missing_root_gives_empty_report sample_fs
             "2024-01-01T00:00:00" "nowhere").
    left. reflexivity.
  - apply (missing_root_gives_empty_report sample_fs
             "2024-01-01T00:00:00" "textData/B/notes.md").
    right. eexists. split; reflexivity.
Defined.

(** ** The walker *)

Lemma reaches_listable (e : entry) (rel : list string)
  (items : list entry) :
  reaches e rel items -> exists n its, e = Dir n true its.
Proof. intros H. destruct H; eauto. Qed.

(** What [os.walk] yields, with hidden directories pruned, is what
    [reaches] describes. *)
Lemma os_walk_reaches (e : entry) :
  forall rel rel' items,
    In (rel', items) (os_walk not_hidden rel e) <->
    exists suf, rel' = (rel ++ suf)%list /\ reaches e suf items.
Proof.
  induction e as [n sz|n|n l its IH] using entry_tree_ind;
    intros rel rel' items.
  - simpl. split; [intros []|].
    intros (suf & _ & H). apply reaches_listable in H as (? & ? & H).
    discriminate.
  - simpl. split; [intros []|].
    intros (suf & _ & H). apply reaches_listable in H as (? & ? & H).
    discriminate.
  - destruct l; simpl.
    2:{ split; [intros []|].
        intros (suf & _ & H). apply reaches_listable in H as (? & ? & H).
        discriminate. }
    rewrite Forall_forall in IH.
    split.
    + intros [E|H].
      * injection E as <- <-. exists []. rewrite app_nil_r.
        split; [reflexivity | constructor].
      * apply in_flat_map in H as (c & Hc & H).
        destruct c as [|m l' sub|]; try contradiction.
        unfold not_hidden in H at 1.
        destruct (PyStr.hidden m) eqn:Hm; simpl in H; [contradiction|].
        apply (IH _ Hc) in H as (suf & -> & Hr).
        exists (m :: suf). rewrite <- app_assoc. simpl.
        split; [reflexivity|]. econstructor; eassumption.
    + intros (suf & -> & Hr). inversion Hr; subst.
      * left. now rewrite app_nil_r.
      * right. apply in_flat_map. eexists. split; [eassumption|].
        unfold not_hidden at 1.
        match goal with H : PyStr.hidden _ = false |- _ => rewrite H end.
        simpl. apply (IH _ ltac:(eassumption)).
        eexists. split; [|eassumption]. now rewrite <- app_assoc.
Qed.

Lemma walk_dirs_nil (items : list entry) :
  walk_dirs not_hidden items = [] <-> leaf_listing items.
Proof.
  unfold walk_dirs, leaf_listing.
  induction items as [|e items IH]; simpl.
  - split; [intros _ ? ? ? [] | reflexivity].
  - destruct e as [n sz|n l sub|n]; simpl.
    + rewrite IH. split; intros H m l sub.
      * intros [E|Hin]; [discriminate | eauto].
      * intros Hin. eapply H. right. eassumption.
    + unfold not_hidden at 1. destruct (PyStr.hidden n) eqn:Hn; simpl.
      * rewrite IH. split; intros H m l' sub'.
        -- intros [E|Hin]; [injection E as <- _ _; exact Hn | eauto].
        -- intros Hin. eapply H. right. eassumption.
      * split; [discriminate|].
        intros H. specialize (H n l sub (or_introl eq_refl)). congruence.
    + rewrite IH. split; intros H m l sub.
      * intros [E|Hin]; [discriminate | eauto].
      * intros Hin. eapply H. right. eassumption.
Qed.

(** The directories that [scan_folder] hands to the classifier. *)
Lemma leaf_dirs_spec (top : entry) (rel : list string)
  (items : list entry) :
  In (rel, items) (leaf_dirs top) <->
  reaches top rel items /\ leaf_listing items.
Proof.
  unfold leaf_dirs. rewrite filter_In, os_walk_reaches. simpl.
  rewrite <- walk_dirs_nil.
  split.
  - intros [(suf & -> & Hr) Hl]. split; [exact Hr|].
    now destruct (walk_dirs not_hidden items).
  - intros [Hr Hl]. split; [now exists rel | now rewrite Hl].
Qed.

(** C8, as amended.  When the name of the root does not start with ".",
    the walker runs the classifier over the leaf directories and no
    others: those reached from the root through listable directories with
    names not starting with ".", and without a subdirectory other than
    hidden ones. *)
Theorem walker_classifies_the_leaves (r : results_t) (folder_path : Path)
  (top : entry) :
  PyStr.startswith (PyPath.name folder_path) "." = false ->
  exists dirs,
    scan_folder r folder_path top = classify_all r folder_path dirs /\
    forall rel items,
      In (rel, items) dirs <-> reaches top rel items /\ leaf_listing items.
Proof.
  intros Hroot. exists (leaf_dirs top). split.
  - unfold scan_folder. now rewrite Hroot.
  - intros rel items. apply leaf_dirs_spec.
Qed.

Lemma walker_classifies_the_leaves_witness :
  exists dirs,
    scan_folder init_results (PyPath.of_string "textData") sample_tree =
    classify_all init_results (PyPath.of_string "textData") dirs /\
    forall rel items,
      In (rel, items) dirs <->
      reaches sample_tree rel items /\ leaf_listing items.
Proof.
  apply (walker_classifies_the_leaves init_results
           (PyPath.of_string "textData") sample_tree).
  reflexivity.
Defined.

(** A root whose name starts with "." is skipped as a whole. *)
Lemma hidden_root_is_skipped (r : results_t) (folder_path : Path)
  (top : entry) :
  PyStr.startswith (PyPath.name folder_path) "." = true ->
  scan_folder r folder_path top = r.
Proof. intros H. unfold scan_folder. now rewrite H. Qed.

Lemma check_leaf_folder_grows (c : category) (r : results_t)
  (folder_path : Path) (relative_path : string) (listable : bool)
  (items : list entry) :
  List.length (cat_list c r) <=
  List.length
    (cat_list c
       (check_leaf_folder r folder_path relative_path listable items)).
Proof.
  destruct (check_leaf_folder_at_most_one r folder_path relative_path
              listable items)
    as [->|(c0 & sev & (i & _ & Hc & Hother & _) & _)]; [lia|].
  assert (Hdec : c = c0 \/ c <> c0)
    by (destruct c, c0; (now left) || (right; discriminate)).
  destruct Hdec as [->|Hne].
  - rewrite Hc, length_app. lia.
  - rewrite (Hother c Hne). lia.
Qed.

Lemma classify_all_grows (c : category) (folder_path : Path)
  (dirs : list (list string * list entry)) :
  forall r,
    List.length (cat_list c r) <=
    List.length (cat_list c (classify_all r folder_path dirs)).
Proof.
  induction dirs as [|d dirs IH]; intros r; simpl; [lia|].
  etransitivity; [|apply IH]. apply check_leaf_folder_grows.
Qed.

(** C8, as stated, fails: a root named ".cache" is a leaf directory, and
    the walker classifies nothing. *)
Lemma hidden_root_leaf_is_not_classified :
  ~ (forall (r : results_t) (folder_path : Path) (top : entry),
        exists dirs,
          scan_folder r folder_path top =
          classify_all r folder_path dirs /\
          forall rel items,
            In (rel, items) dirs <->
            reaches top rel items /\ leaf_listing items).
Proof.
  intros H.
  destruct (H init_results (PyPath.of_string ".cache") hidden_root)
    as (dirs & Hscan & Hmem).
  assert (Hin : In ([], []) dirs).
  { apply Hmem. split; [constructor | intros ? ? ? []]. }
  destruct dirs as [|[rel items] dirs]; [contradiction|].
  assert (Hd : rel = [] /\ items = []).
  { destruct (proj1 (Hmem rel items) (or_introl eq_refl)) as [Hr _].
    inversion Hr; subst; [now split | contradiction]. }
  destruct Hd as [-> ->].
  pose proof (classify_all_grows EmptyFolders (PyPath.of_string ".cache")
                dirs
                (check_leaf_folder init_results
                   (PyPath.descend (PyPath.of_string ".cache") [])
                   (PyPath.str_relative []) true [])) as Hg.
  change (classify_all
            (check_leaf_folder init_results
               (PyPath.descend (PyPath.of_string ".cache") [])
               (PyPath.str_relative []) true [])
            (PyPath.of_string ".cache") dirs)
    with (classify_all init_results (PyPath.of_string ".cache")
            (([], []) :: dirs)) in Hg.
  rewrite <- Hscan in Hg. vm_compute in Hg. lia.
Qed.

(** A directory whose only subdirectory is hidden is a leaf for the
    dashboard walker: it is classified, here as valid. *)
Example hidden_subdirectory_keeps_a_leaf :
  leaf_dirs repo_tree =
    [([], [Dir ".git" true [Dir "objects" true []];
           File "index.md" (Some 42%N)])] /\
  List.length
    (valid_folders
       (scan_folder init_results (PyPath.of_string "notes") repo_tree)) = 1.
Proof. split; reflexivity. Qed.

(** ** The two scripts *)

(** The command-line walker counts hidden subdirectories in
    [is_leaf_folder] and skips them in [scan_folder]: the directory of
    [repo_tree] is neither classified nor descended into. *)
Example cli_hidden_subdirectory_hides_the_folder (d : Cli.detector) :
  Cli.scan_folder d (PyPath.of_string "notes") repo_tree "" = d.
Proof. reflexivity. Qed.

(** X12. The command-line script on a root that does not exist or is not
    a directory: after its two opening lines it prints the matching error
    and nothing more, both lists stay empty and no summary is made. *)
Lemma cli_missing_root (fs : filesystem) (now root : string) :
  fs (PyPath.of_string root) = None \/
  (exists e, fs (PyPath.of_string root) = Some e /\ is_dir e = false) ->
  let d := Cli.run fs now root in
  Cli.empty_folders (Cli.missing_files_report d) = [] /\
  Cli.json_only_folders (Cli.missing_files_report d) = [] /\
  Cli.summary (Cli.missing_files_report d) = None /\
  Cli.console d =
    [Cli.ScanningIn (PyPath.str (PyPath.of_string root));
     Cli.Rule;
     match fs (PyPath.of_string root) with
     | Some _ => Cli.ErrNotDirectory (PyPath.str (PyPath.of_string root))
     | None => Cli.ErrNotExist (PyPath.str (PyPath.of_string root))
     end].
Proof.
  intros [H|(e & H & He)]; unfold Cli.run; rewrite H.
  - repeat split.
  - destruct e; try discriminate; repeat split.
Qed.

(** The simplified script tests existence only: a missing root is
    reported, a root that is a file is walked and yields nothing. *)
Lemma simple_missing_root (fs : filesystem) (now root_path : string) :
  fs (PyPath.of_string root_path) = None ->
  Simple.scan_for_missing_files fs now root_path =
    (Simple.mkResults [] [] now, [Simple.ErrNotFound root_path]).
Proof. intros H. unfold Simple.scan_for_missing_files. now rewrite H. Qed.

(** X13. The simplified script on a root that exists and is not a
    directory: the walk yields nothing, no error is printed and both lists
    are empty. *)
Lemma simple_root_not_a_directory (fs : filesystem)
  (now root_path : string) (e : entry) :
  fs (PyPath.of_string root_path) = Some e -> is_dir e = false ->
  Simple.scan_for_missing_files fs now root_path =
    (Simple.mkResults [] [] now,
     [Simple.Scanning root_path; Simple.Dashes]).
Proof.
  intros H He. unfold Simple.scan_for_missing_files. rewrite H.
  destruct e; try discriminate; reflexivity.
Qed.

(** X15. The simplified script on a leaf whose entries are all hidden:
    the folder is reported as empty. *)
Lemma simple_hidden_files_only (results : Simple.results_t)
  (out : list Simple.printed) (rel : list string) (items : list entry) :
  existsb is_dir items = false ->
  forallb (fun f => PyStr.startswith f ".") (walk_files items) = true ->
  Simple.visit (results, out) (rel, items) =
    (Simple.mkResults
       (Simple.empty_folders results ++ [PyPath.str_relative rel])
       (Simple.json_only_folders results) (Simple.scan_date results),
     (out ++ [Simple.Empty (PyPath.str_relative rel)])%list).
Proof.
  intros Hleaf Hhid. unfold Simple.visit. simpl.
  assert (Hd : walk_dirs (fun _ => true) items = []).
  { unfold walk_dirs. clear Hhid.
    induction items as [|e items IH]; [reflexivity|].
    simpl in Hleaf. apply orb_false_iff in Hleaf as [He Hl].
    simpl. rewrite He. now apply IH. }
  rewrite Hd, Hhid, orb_true_r. reflexivity.
Qed.

(** The simplified script compares extensions as they are written and has
    no empty bucket: an upper-case ".JSON" file of zero bytes is an "other"
    file there, and its folder reaches neither list. *)
Example simple_is_case_sensitive (results : Simple.results_t)
  (out : list Simple.printed) :
  Simple.visit (results, out) (["C"], [File "meta.JSON" (Some 0%N)]) =
    (results, out).
Proof. reflexivity. Qed.

(** ** Each leaf once *)

Lemma os_walk_prefix (keep : string -> bool) (e : entry) :
  forall rel y, In y (os_walk keep rel e) ->
                exists suf, fst y = (rel ++ suf)%list.
Proof.
  induction e as [n sz|n|n l its IH] using entry_tree_ind;
    intros rel y; simpl; try contradiction.
  destruct l; [|contradiction]. rewrite Forall_forall in IH.
  intros [<-|H].
  - exists []. now rewrite app_nil_r.
  - apply in_flat_map in H as (c & Hc & H).
    destruct c as [|m l' sub|]; try contradiction.
    destruct (keep m); [|contradiction].
    apply (IH _ Hc) in H as (suf & ->).
    exists (m :: suf). now rewrite <- app_assoc.
Qed.

Lemma child_walk_prefix (keep : string -> bool) (rel : list string)
  (c : entry) (y : list string * list entry) :
  In y (match c with
        | Dir n _ _ => if keep n then os_walk keep (rel ++ [n]) c else []
        | _ => []
        end) ->
  exists suf, fst y = (rel ++ entry_name c :: suf)%list.
Proof.
  destruct c as [|m l sub|]; try contradiction.
  destruct (keep m); [|contradiction].
  intros H. apply os_walk_prefix in H as (suf & ->).
  exists suf. now rewrite <- app_assoc.
Qed.

Lemma unique_names_items (n : string) (l : bool) (its : list entry) :
  unique_names (Dir n l its) ->
  NoDup (map entry_name its) /\ Forall unique_names its.
Proof.
  simpl. intros [Hn Hall]. split; [exact Hn|]. clear Hn.
  induction its as [|x xs IH]; constructor; [apply Hall | apply IH, Hall].
Qed.

(** With unique names on the disk, [os.walk] yields no path twice. *)
Lemma os_walk_nodup (keep : string -> bool) (e : entry) :
  forall rel, unique_names e -> NoDup (map fst (os_walk keep rel e)).
Proof.
  induction e as [n sz|n|n l its IH] using entry_tree_ind;
    intros rel Hu; simpl; try constructor.
  destruct l; [|constructor].
  apply unique_names_items in Hu as [Hnd Hall].
  simpl. constructor.
  - intros Hin. apply in_map_iff in Hin as (y & Hy & Hin).
    apply in_flat_map in Hin as (c & _ & Hin).
    apply child_walk_prefix in Hin as (suf & E).
    rewrite Hy in E. apply (f_equal (@List.length _)) in E.
    rewrite length_app in E. simpl in E. lia.
  - clear n. induction its as [|c its IHits]; [constructor|].
    simpl. rewrite map_app.
    inversion IH as [|? ? IHc IHrest]; subst.
    inversion Hall as [|? ? Hc Hrest]; subst.
    inversion Hnd as [|? ? Hfresh Hnd']; subst.
    apply NoDup_app.
    + destruct c as [|m l' sub|]; try constructor.
      destruct (keep m); [now apply IHc | constructor].
    + now apply IHits.
    + intros p Hp Hq.
      apply in_map_iff in Hp as (y & <- & Hy).
      apply in_map_iff in Hq as (z & Hz & Hq).
      apply child_walk_prefix in Hy as (suf & Ey).
      apply in_flat_map in Hq as (c' & Hc' & Hq).
      apply child_walk_prefix in Hq as (suf' & Ez).
      rewrite Hz, Ey in Ez. apply app_inv_head in Ez.
      injection Ez as Ez _. apply Hfresh. rewrite Ez.
      now apply in_map.
Qed.

(** Dropping yielded triples keeps their paths distinct. *)
Lemma filter_keeps_paths_distinct
  (sel : list string * list entry -> bool)
  (ys : list (list string * list entry)) :
  NoDup (map fst ys) -> NoDup (map fst (filter sel ys)).
Proof.
  induction ys as [|y ys IH]; intros Hnd; simpl; [constructor|].
  simpl in Hnd. apply NoDup_cons_iff in Hnd as [Hy Hys].
  destruct (sel y); [|auto]. simpl.
  apply NoDup_cons; [|auto].
  intros Hin. apply Hy.
  apply in_map_iff in Hin as (z & Hz & Hin).
  apply filter_In in Hin as [Hin _].
  rewrite <- Hz. now apply in_map.
Qed.

(** X16. With unique names on the disk the dashboard walker hands no
    directory to the classifier twice. *)
Lemma leaf_dirs_nodup (top : entry) :
  unique_names top -> NoDup (map fst (leaf_dirs top)).
Proof.
  intros H. unfold leaf_dirs. apply filter_keeps_paths_distinct.
  now apply os_walk_nodup.
Qed.

(** One leaf is walked and classified, none is counted: the summary of a
    root whose only leaf holds a log file reports zero scanned folders. *)
Example total_scanned_misses_dropped_folders :
  List.length (leaf_dirs logs_tree) = 1 /\
  option_map total_scanned_folders
    (summary
       (generate_summary
          (scan_folder init_results (PyPath.of_string "textData")
             logs_tree))) = Some 0.
Proof. split; reflexivity. Qed.

Example sample_tree_has_unique_names : unique_names sample_tree.
Proof.
  simpl. repeat split; repeat constructor; simpl;
    intuition discriminate.
Qed.

(** ** What a scan leaves in the four lists *)

Import Audit.

Lemma category_eqb_eq (a b : category) : category_eqb a b = true <-> a = b.
Proof. destruct a, b; simpl; split; congruence. Qed.

Ltac other_lists :=
  let c := fresh "c" in
  let H := fresh "H" in
  intros c H; destruct c; simpl; congruence.

(** One call of the classifier, with the record it appends. *)
Lemma check_leaf_folder_step (r : results_t) (folder_path : Path)
  (relative_path : string) (items : list entry) :
  let r' := check_leaf_folder r folder_path relative_path true items in
  match category_of items with
  | Some c =>
      exists i,
        cat_list c r' = (cat_list c r ++ [i])%list /\
        (forall c', c' <> c -> cat_list c' r' = cat_list c' r) /\
        record_ok c i /\
        path i = relative_path /\
        absolute_path i = PyPath.str folder_path /\
        files i = get_file_types true items
  | None => r' = r
  end.
Proof.
  unfold check_leaf_folder, category_of, count.
  set (ft := get_file_types true items). simpl.
  destruct (Nat.eqb_spec
              (List.length (json_files ft) + List.length (md_files ft) +
               List.length (log_files ft) + List.length (other_files ft)) 0)
    as [Ht|Ht];
  destruct (Nat.eqb_spec (List.length (empty_files ft)) 0) as [He|He];
  simpl.
  - eexists. split; [reflexivity|]. split; [other_lists|].
    split; [|repeat split].
    split; [repeat split|]. simpl. repeat split.
    f_equal; lia.
  - destruct (Nat.ltb_spec 0 (List.length (json_files ft))); [lia|]. simpl.
    destruct (Nat.ltb_spec 0 (List.length (empty_files ft))); [|lia].
    destruct (Nat.ltb_spec 0 (List.length (md_files ft))); [lia|].
    eexists. split; [reflexivity|]. split; [other_lists|].
    split; [|repeat split].
    split; [repeat split|]. simpl. split; [lia|]. right.
    repeat split. lia.
  - destruct (Nat.ltb_spec 0 (List.length (json_files ft))) as [Hj|Hj];
    destruct (Nat.eqb_spec (List.length (md_files ft)) 0) as [Hm|Hm];
    destruct (Nat.eqb_spec (List.length (log_files ft)) 0) as [Hg|Hg];
    destruct (Nat.eqb_spec (List.length (other_files ft)) 0) as [Ho|Ho];
    simpl;
    try (eexists; split; [reflexivity|]; split; [other_lists|];
         split; [|repeat split];
         split; [repeat split|]; simpl; repeat split; lia);
    (destruct (Nat.ltb_spec 0 (List.length (empty_files ft))); [lia|]);
    (destruct (Nat.ltb_spec 0 (List.length (md_files ft))) as [Hm'|Hm'];
     [ eexists; split; [reflexivity|]; split; [other_lists|];
       split; [|repeat split];
       split; [repeat split|]; simpl; repeat split; lia
     | reflexivity ]).
  - destruct (Nat.ltb_spec 0 (List.length (json_files ft))) as [Hj|Hj];
    destruct (Nat.eqb_spec (List.length (md_files ft)) 0) as [Hm|Hm];
    destruct (Nat.eqb_spec (List.length (log_files ft)) 0) as [Hg|Hg];
    destruct (Nat.eqb_spec (List.length (other_files ft)) 0) as [Ho|Ho];
    simpl;
    (destruct (Nat.ltb_spec 0 (List.length (empty_files ft))); [|lia]);
    (destruct (Nat.ltb_spec 0 (List.length (md_files ft))) as [Hm'|Hm'];
     eexists; (split; [reflexivity|]); (split; [other_lists|]);
     (split; [|repeat split]);
     (split; [repeat split|]); simpl; (split; [lia|]);
     [ left | right ]; repeat split; lia).
Qed.

(** The classification pass appends to each list, in order, one record
    for each directory of its category. *)
Lemma classify_all_lists (c : category) (folder_path : Path)
  (dirs : list (list string * list entry)) :
  forall r,
    exists recs,
      cat_list c (classify_all r folder_path dirs) =
        (cat_list c r ++ recs)%list /\
      Forall2 (fun y i => record_ok c i /\ record_of folder_path y i)
        (filter (in_category c) dirs) recs.
Proof.
  induction dirs as [|y dirs IH]; intros r.
  - exists []. simpl. rewrite app_nil_r. split; [reflexivity|constructor].
  - change (classify_all r folder_path (y :: dirs))
      with (classify_all
              (check_leaf_folder r (PyPath.descend folder_path (fst y))
                 (PyPath.str_relative (fst y)) true (snd y))
              folder_path dirs).
    pose proof (check_leaf_folder_step r
                  (PyPath.descend folder_path (fst y))
                  (PyPath.str_relative (fst y)) (snd y)) as Hstep.
    simpl in Hstep. simpl filter. unfold in_category at 1.
    destruct (category_of (snd y)) as [c0|].
    + destruct Hstep as (i & Hc0 & Hother & Hok & Hp & Ha & Hf).
      destruct (IH (check_leaf_folder r
                      (PyPath.descend folder_path (fst y))
                      (PyPath.str_relative (fst y)) true (snd y)))
        as (recs & Hrecs & Hall).
      destruct (category_eqb c0 c) eqn:E.
      * apply category_eqb_eq in E. subst c0.
        exists (i :: recs). split.
        -- rewrite Hrecs, Hc0, <- app_assoc. reflexivity.
        -- constructor; [|exact Hall]. split; [exact Hok|].
           repeat split; assumption.
      * exists recs. split; [|exact Hall].
        rewrite Hrecs, Hother; [reflexivity|].
        intros ->. destruct c0; discriminate.
    + rewrite Hstep. apply IH.
Qed.

Lemma run_scan_on_directory (fs : filesystem) (now selected_folder : string)
  (n : string) (l : bool) (items : list entry) (c : category) :
  fs (PyPath.of_string selected_folder) = Some (Dir n l items) ->
  PyStr.startswith (PyPath.name (PyPath.of_string selected_folder)) "."
    = false ->
  cat_list c (results (run_scan fs now selected_folder)) =
  cat_list c
    (classify_all
       (mkResults (Some now) (Some selected_folder) [] [] [] [] None)
       (PyPath.of_string selected_folder) (leaf_dirs (Dir n l items))).
Proof.
  intros Hfs Hroot. unfold run_scan. rewrite Hfs. simpl results.
  rewrite generate_summary_lists. unfold scan_folder. rewrite Hroot.
  reflexivity.
Qed.

(** The lists of a scan against the walked leaves, one list at a time. *)
Lemma scan_lists_follow_the_walk_aux (fs : filesystem)
  (now selected_folder : string) (n : string) (l : bool)
  (items : list entry) (c : category) :
  fs (PyPath.of_string selected_folder) = Some (Dir n l items) ->
  PyStr.startswith (PyPath.name (PyPath.of_string selected_folder)) "."
    = false ->
  Forall2 (record_of (PyPath.of_string selected_folder))
    (filter (in_category c) (leaf_dirs (Dir n l items)))
    (cat_list c (results (run_scan fs now selected_folder))).
Proof.
  intros Hfs Hroot.
  rewrite (run_scan_on_directory _ _ _ _ _ _ c Hfs Hroot).
  destruct (classify_all_lists c (PyPath.of_string selected_folder)
              (leaf_dirs (Dir n l items))
              (mkResults (Some now) (Some selected_folder) [] [] [] []
                 None))
    as (recs & -> & Hall).
  replace (cat_list c
             (mkResults (Some now) (Some selected_folder) [] [] [] [] None))
    with (@nil folder_info) by (destruct c; reflexivity).
  simpl. eapply Forall2_impl; [|exact Hall]. intros y i [_ H]. exact H.
Qed.

(** X1. After a scan of a directory whose name does not start with ".",
    each of the four lists holds, in walk order, one record for each
    walked leaf of its category and nothing else; the record carries the
    leaf's relative path, its path below the root and its file
    partition. *)
Theorem scan_lists_follow_the_walk (fs : filesystem)
  (now selected_folder : string) (n : string) (l : bool)
  (items : list entry) (c : category) :
  fs (PyPath.of_string selected_folder) = Some (Dir n l items) ->
  PyStr.startswith (PyPath.name (PyPath.of_string selected_folder)) "."
    = false ->
  Forall2 (record_of (PyPath.of_string selected_folder))
    (filter (in_category c) (leaf_dirs (Dir n l items)))
    (cat_list c (results (run_scan fs now selected_folder))).
Proof. apply scan_lists_follow_the_walk_aux. Qed.

Lemma scan_lists_follow_the_walk_witness :
  Forall2 (record_of (PyPath.of_string "textData"))
    (filter (in_category FoldersWithEmptyFiles) (leaf_dirs sample_tree))
    (folders_with_empty_files
       (results (run_scan sample_fs "2024-01-01T00:00:00" "textData"))).
Proof.
  apply (scan_lists_follow_the_walk sample_fs "2024-01-01T00:00:00"
           "textData" "textData" true
           [Dir "A" true [];
            Dir "B" true [File "notes.md" (Some 10%N)];
            Dir "C" true [File "meta.json" (Some 5%N)];
            Dir "D" true [File "notes.md" (Some 10%N);
                          File "draft.md" (Some 0%N)]]
           FoldersWithEmptyFiles); reflexivity.
Defined.

Lemma classify_all_records_ok (c : category) (folder_path : Path)
  (dirs : list (list string * list entry)) (r : results_t) :
  Forall (record_ok c) (cat_list c r) ->
  Forall (record_ok c) (cat_list c (classify_all r folder_path dirs)).
Proof.
  intros Hr.
  destruct (classify_all_lists c folder_path dirs r) as (recs & -> & Hall).
  apply Forall_app. split; [exact Hr|].
  clear Hr. induction Hall as [|y i ys recs [Hok _] _ IH]; constructor;
    assumption.
Qed.

(** The records a scan returns, whatever the root. *)
Lemma run_scan_records (fs : filesystem)
  (now selected_folder : string) (c : category) (i : folder_info) :
  In i (cat_list c (results (run_scan fs now selected_folder))) ->
  record_ok c i.
Proof.
  unfold run_scan.
  destruct (fs (PyPath.of_string selected_folder)) as [[| n l items|]|];
    simpl results; try (destruct c; contradiction).
  rewrite generate_summary_lists. unfold scan_folder.
  destruct (PyStr.startswith
              (PyPath.name (PyPath.of_string selected_folder)) ".");
    [destruct c; contradiction|].
  intros Hin.
  assert (H : Forall (record_ok c)
                (cat_list c
                   (classify_all
                      (mkResults (Some now) (Some selected_folder)
                         [] [] [] [] None)
                      (PyPath.of_string selected_folder)
                      (leaf_dirs (Dir n l items))))).
  { apply classify_all_records_ok. destruct c; constructor. }
  rewrite Forall_forall in H. apply H. exact Hin.
Qed.

(** X2. Whatever the root, every record a scan returns is of the shape
    of its list: the counts are the lengths of the file lists; an empty
    folder has all counts zero, a JSON-only folder JSON files and nothing
    else, both with severity high; a folder with empty files has a positive
    empty count and is medium exactly when it has markdown content; a valid
    folder has markdown content, no empty file and severity none. *)
Theorem scan_records_fit_their_list (fs : filesystem)
  (now selected_folder : string) (c : category) (i : folder_info) :
  In i (cat_list c (results (run_scan fs now selected_folder))) ->
  record_ok c i.
Proof. apply run_scan_records. Qed.

Lemma scan_records_fit_their_list_witness :
  exists i,
    In i (folders_with_empty_files
            (results (run_scan sample_fs "2024-01-01T00:00:00" "textData")))
    /\ record_ok FoldersWithEmptyFiles i.
Proof.
  eexists. split.
  - left. reflexivity.
  - apply (scan_records_fit_their_list sample_fs "2024-01-01T00:00:00"
             "textData" FoldersWithEmptyFiles).
    left. reflexivity.
Defined.

Lemma in_category_split (dirs : list (list string * list entry)) :
  List.length (filter (in_category EmptyFolders) dirs) +
  List.length (filter (in_category JsonOnlyFolders) dirs) +
  List.length (filter (in_category FoldersWithEmptyFiles) dirs) +
  List.length (filter (in_category ValidFolders) dirs) =
  List.length (filter categorized dirs).
Proof.
  induction dirs as [|y dirs IH]; [reflexivity|].
  simpl filter. unfold in_category, categorized in *.
  destruct (category_of (snd y)) as [[| | |]|]; simpl; lia.
Qed.

Lemma filter_complement_length {A : Type} (sel : A -> bool) (xs : list A) :
  List.length (filter sel xs) +
  List.length (filter (fun x => negb (sel x)) xs) = List.length xs.
Proof.
  induction xs as [|x xs IH]; [reflexivity|].
  simpl. destruct (sel x); simpl; lia.
Qed.

(** The listings the policy leaves without a category. *)
Lemma category_of_none_iff (items : list entry) :
  category_of items = None <->
  count EmptyB true items = 0 /\ count Md true items = 0 /\
  0 < count Log true items + count Other true items.
Proof.
  unfold category_of. cbv zeta.
  destruct (Nat.eqb_spec
              (count Json true items + count Md true items +
               count Log true items + count Other true items) 0);
  destruct (Nat.eqb_spec (count EmptyB true items) 0);
  destruct (Nat.ltb_spec 0 (count Json true items));
  destruct (Nat.eqb_spec (count Md true items) 0);
  destruct (Nat.eqb_spec (count Log true items) 0);
  destruct (Nat.eqb_spec (count Other true items) 0);
  destruct (Nat.ltb_spec 0 (count EmptyB true items));
  destruct (Nat.ltb_spec 0 (count Md true items));
  simpl; split; try discriminate; try lia; intros; try reflexivity; lia.
Qed.

(** X3. After a scan of a directory whose name does not start with ".",
    [total_scanned_folders] counts the walked leaves that have a category:
    together with the leaves that hold neither markdown content nor an
    empty file but a log or other file, it gives the number of leaves
    walked. *)
Theorem total_scanned_accounts_for_leaves (fs : filesystem)
  (now selected_folder : string) (n : string) (l : bool)
  (items : list entry) :
  fs (PyPath.of_string selected_folder) = Some (Dir n l items) ->
  PyStr.startswith (PyPath.name (PyPath.of_string selected_folder)) "."
    = false ->
  exists s,
    summary (results (run_scan fs now selected_folder)) = Some s /\
    total_scanned_folders s +
    List.length
      (filter (fun y => (count EmptyB true (snd y) =? 0) &&
                        (count Md true (snd y) =? 0) &&
                        (0 <? count Log true (snd y) +
                              count Other true (snd y)))
              (leaf_dirs (Dir n l items))) =
    List.length (leaf_dirs (Dir n l items)).
Proof.
  intros Hfs Hroot.
  pose proof (fun c => Forall2_length
                (scan_lists_follow_the_walk_aux fs now selected_folder
                   n l items c Hfs Hroot)) as Hlen.
  pose proof (Hlen EmptyFolders) as H1.
  pose proof (Hlen JsonOnlyFolders) as H2.
  pose proof (Hlen FoldersWithEmptyFiles) as H3.
  pose proof (Hlen ValidFolders) as H4.
  simpl in H1, H2, H3, H4. clear Hlen.
  unfold run_scan in *. rewrite Hfs in *. simpl in *.
  eexists. split; [reflexivity|]. simpl.
  rewrite <- H1, <- H2, <- H3, <- H4, in_category_split.
  rewrite <- (filter_complement_length categorized
                (leaf_dirs (Dir n l items))).
  f_equal. f_equal. apply filter_ext. intros y. unfold categorized.
  destruct (category_of (snd y)) eqn:E; simpl.
  - destruct (Nat.eqb_spec (count EmptyB true (snd y)) 0);
    destruct (Nat.eqb_spec (count Md true (snd y)) 0);
    destruct (Nat.ltb_spec 0 (count Log true (snd y) +
                              count Other true (snd y)));
    simpl; try reflexivity.
    assert (category_of (snd y) = None)
      by (apply category_of_none_iff; auto). congruence.
  - apply category_of_none_iff in E as (-> & -> & E). simpl.
    now apply Nat.ltb_lt in E as ->.
Qed.

Lemma total_scanned_accounts_for_leaves_witness :
  exists s,
    summary (results (run_scan mixed_fs "2024-01-01T00:00:00" "textData"))
      = Some s /\
    total_scanned_folders s + 1 = 5.
Proof.
  destruct (total_scanned_accounts_for_leaves mixed_fs
              "2024-01-01T00:00:00" "textData" "textData" true
              [Dir "A" true [];
               Dir "B" true [File "notes.md" (Some 10%N)];
               Dir "C" true [File "meta.json" (Some 5%N)];
               Dir "D" true [File "notes.md" (Some 10%N);
                             File "draft.md" (Some 0%N)];
               Dir "E" true [File "app.log" (Some 12%N)];
               Dir ".git" true [Dir "objects" true []]]
              eq_refl eq_refl) as (s & Hs & Hcount).
  exists s. split; [exact Hs | exact Hcount].
Defined.

(** ** The status badge and the reports *)

Lemma lower_append (a b : string) :
  PyStr.lower (a ++ b) = PyStr.lower a ++ PyStr.lower b.
Proof. induction a as [|c a IH]; simpl; [reflexivity | now rewrite IH]. Qed.

Lemma contains_unfold (s sub : string) :
  Dashboard.contains s sub =
  String.prefix sub s ||
  match s with
  | EmptyString => false
  | String _ s' => Dashboard.contains s' sub
  end.
Proof. destruct s; reflexivity. Qed.

Lemma contains_after (a b sub : string) :
  Dashboard.contains b sub = true -> Dashboard.contains (a ++ b) sub = true.
Proof.
  intros H. induction a as [|c a IH]; [exact H|].
  simpl append. rewrite contains_unfold, IH. apply orb_true_r.
Qed.

Lemma occurs_append (c : ascii) (a b : string) :
  occurs c (a ++ b) = occurs c a || occurs c b.
Proof.
  induction a as [|x a IH]; simpl; [reflexivity|].
  now rewrite IH, orb_assoc.
Qed.

(** A string in which the first character of [sub] does not occur does
    not contain [sub]. *)
Lemma contains_needs_first (c : ascii) (sub s : string) :
  occurs c s = false -> Dashboard.contains s (String c sub) = false.
Proof.
  induction s as [|a s IH]; intros H; [reflexivity|].
  simpl in H. apply orb_false_iff in H as [Ha Hs].
  rewrite contains_unfold, (IH Hs), orb_false_r. simpl.
  destruct (ascii_dec c a) as [->|_]; [|reflexivity].
  now rewrite Ascii.eqb_refl in Ha.
Qed.

Lemma digits_have_no_V (d : Decimal.uint) :
  occurs "V" (NilEmpty.string_of_uint d) = false.
Proof. induction d; simpl; auto. Qed.

Lemma issue_medium_not_valid (k : nat) :
  Dashboard.contains
    ("Folder has content but contains " ++ PyStr.of_nat k ++
     " empty file(s)") "Valid folder" = false.
Proof.
  apply contains_needs_first.
  rewrite !occurs_append. unfold PyStr.of_nat.
  now rewrite digits_have_no_V.
Qed.

Lemma issue_high_not_valid (k : nat) :
  Dashboard.contains
    ("No main content files, contains " ++ PyStr.of_nat k ++
     " empty file(s)") "Valid folder" = false.
Proof.
  apply contains_needs_first.
  rewrite !occurs_append. unfold PyStr.of_nat.
  now rewrite digits_have_no_V.
Qed.

Lemma issue_medium_says_empty (k : nat) :
  Dashboard.contains
    (PyStr.lower ("Folder has content but contains " ++ PyStr.of_nat k ++
                  " empty file(s)")) "empty" = true.
Proof.
  rewrite !lower_append.
  apply contains_after, contains_after. reflexivity.
Qed.

(** The badge of a record of each list. *)
Lemma status_of_record (c : category) (i : folder_info) :
  record_ok c i ->
  Dashboard.status_indicator i =
    match c with
    | ValidFolders => Dashboard.Valid
    | _ => Dashboard.Critical
    end.
Proof.
  intros [_ H]. unfold Dashboard.status_indicator.
  destruct c.
  - destruct H as (-> & -> & _). reflexivity.
  - destruct H as (-> & -> & _). reflexivity.
  - destruct H as (_ & [(_ & -> & ->)|(_ & -> & ->)]).
    + rewrite issue_medium_not_valid, issue_medium_says_empty. reflexivity.
    + rewrite issue_high_not_valid. reflexivity.
  - destruct H as (-> & _). reflexivity.
Qed.

(** X4. The status badge of the records of a scan: "Valid" for every
    record of [valid_folders] and "Critical" for every record of the three
    other lists, the medium-severity ones included, because their issue
    text contains "empty"; "Issues" and "Unknown" are never shown. *)
Theorem scan_records_show_valid_or_critical (fs : filesystem)
  (now selected_folder : string) (c : category) (i : folder_info) :
  In i (cat_list c (results (run_scan fs now selected_folder))) ->
  Dashboard.status_indicator i =
    match c with
    | ValidFolders => Dashboard.Valid
    | _ => Dashboard.Critical
    end.
Proof.
  intros Hin. apply status_of_record.
  eapply run_scan_records. exact Hin.
Qed.

Lemma scan_records_show_valid_or_critical_witness :
  exists i,
    In i (folders_with_empty_files
            (results (run_scan sample_fs "2024-01-01T00:00:00" "textData")))
    /\ severity i = "medium"
    /\ Dashboard.status_indicator i = Dashboard.Critical.
Proof.
  eexists. split; [left; reflexivity|]. split; [reflexivity|].
  apply (scan_records_show_valid_or_critical sample_fs
           "2024-01-01T00:00:00" "textData" FoldersWithEmptyFiles).
  left. reflexivity.
Defined.

Lemma rows_ok (c : category) (issue_type : string)
  (recs : list folder_info) :
  Forall (record_ok c) recs ->
  match c with
  | EmptyFolders => issue_type = "Empty Folder"
  | JsonOnlyFolders => issue_type = "JSON-Only Folder"
  | FoldersWithEmptyFiles => issue_type = "Empty Files Issue"
  | ValidFolders => False
  end ->
  Forall row_ok (map (Dashboard.row_of issue_type) recs).
Proof.
  intros Hall Hty. induction Hall as [|i recs [_ Hi] _ IH];
    simpl; constructor; [|exact IH].
  unfold row_ok, Dashboard.row_of; simpl.
  destruct c; try contradiction; subst issue_type.
  - left. destruct Hi as (-> & _ & ->). repeat split.
  - right; left. destruct Hi as (-> & _ & ? & -> & _ & _ & ->).
    repeat split. assumption.
  - right; right. destruct Hi as (? & Hs). split; [reflexivity|].
    split; [assumption|].
    destruct Hs as [(? & -> & _)|(-> & -> & _)]; [left|right];
      repeat split; assumption.
Qed.

(** X5. After a scan of a directory the CSV part of the page finds the
    summary; it offers no download when nothing is problematic, and
    otherwise as many rows as [total_problematic_folders], none of them
    for a valid folder, each of the shape of its issue type. *)
Theorem csv_report_after_scan (fs : filesystem)
  (now selected_folder : string) (n : string) (l : bool)
  (items : list entry) :
  fs (PyPath.of_string selected_folder) = Some (Dir n l items) ->
  exists s,
    summary (results (run_scan fs now selected_folder)) = Some s /\
    match Dashboard.csv_report (results (run_scan fs now selected_folder))
    with
    | Dashboard.KeyError => False
    | Dashboard.NoDownload => total_problematic_folders s = 0
    | Dashboard.Download rows =>
        0 < total_problematic_folders s /\
        List.length rows = total_problematic_folders s /\
        Forall row_ok rows
    end.
Proof.
  intros Hfs.
  assert (Hrec : forall c,
             Forall (record_ok c)
               (cat_list c (results (run_scan fs now selected_folder)))).
  { intros c. apply Forall_forall. intros i. apply run_scan_records. }
  pose proof (Hrec EmptyFolders) as H1.
  pose proof (Hrec JsonOnlyFolders) as H2.
  pose proof (Hrec FoldersWithEmptyFiles) as H3. clear Hrec.
  unfold Dashboard.csv_report.
  revert H1 H2 H3. unfold run_scan. rewrite Hfs. simpl results.
  set (r := scan_folder _ _ _). simpl. intros H1 H2 H3.
  eexists. split; [reflexivity|]. simpl.
  destruct (Nat.ltb_spec 0
              (List.length (empty_folders r) +
               List.length (json_only_folders r) +
               List.length (folders_with_empty_files r))) as [Hp|Hp];
    [|lia].
  split; [exact Hp|]. unfold Dashboard.problematic_data. simpl.
  split.
  - rewrite !length_app, !length_map. lia.
  - repeat (apply Forall_app; split).
    + now apply (rows_ok EmptyFolders).
    + now apply (rows_ok JsonOnlyFolders).
    + now apply (rows_ok FoldersWithEmptyFiles).
Qed.

Lemma csv_report_after_scan_witness :
  exists rows,
    Dashboard.csv_report
      (results (run_scan sample_fs "2024-01-01T00:00:00" "textData"))
      = Dashboard.Download rows /\
    List.length rows = 3 /\ Forall row_ok rows.
Proof.
  destruct (csv_report_after_scan sample_fs "2024-01-01T00:00:00"
              "textData" "textData" true
              [Dir "A" true [];
               Dir "B" true [File "notes.md" (Some 10%N)];
               Dir "C" true [File "meta.json" (Some 5%N)];
               Dir "D" true [File "notes.md" (Some 10%N);
                             File "draft.md" (Some 0%N)]]
              eq_refl) as (s & Hs & H).
  injection Hs as <-.
  eexists. split; [reflexivity|]. exact (proj2 H).
Defined.

(** X6. The summary dashboard needs a completed scan.  On the results of
    a scan whose root is missing or is not a directory the summary is the
    empty dictionary, and both [create_visualizations] and the CSV part
    raise [KeyError]; on the results of a scan of a directory the four
    slices of the pie chart add up to the "Total Scanned" metric. *)
Theorem visualizations_need_a_completed_scan (fs : filesystem)
  (now selected_folder : string) :
  let r := results (run_scan fs now selected_folder) in
  match fs (PyPath.of_string selected_folder) with
  | Some (Dir _ _ _) =>
      exists ch,
        Dashboard.create_visualizations r = Some ch /\
        hd_error (Dashboard.metrics ch) =
          Some ("Total Scanned", list_sum (Dashboard.pie_values ch)) /\
        list_sum (Dashboard.pie_values ch) =
          List.length (empty_folders r) +
          List.length (json_only_folders r) +
          List.length (folders_with_empty_files r) +
          List.length (valid_folders r)
  | _ =>
      Dashboard.create_visualizations r = None /\
      Dashboard.csv_report r = Dashboard.KeyError
  end.
Proof.
  unfold run_scan.
  destruct (fs (PyPath.of_string selected_folder)) as [[| n l items|]|];
    simpl; try (split; reflexivity).
  eexists. split; [reflexivity|]. simpl. split; [f_equal; f_equal|]; lia.
Qed.

(** ** The structure report *)

Lemma dict_get_set (d : Zip.dict) (k k' : string) (v default : nat) :
  Zip.dict_get (Zip.dict_set d k v) k' default =
  if String.eqb k k' then v else Zip.dict_get d k' default.
Proof.
  induction d as [|[k0 v0] d IH]; simpl.
  - reflexivity.
  - destruct (String.eqb_spec k0 k) as [->|Hne]; simpl.
    + destruct (String.eqb k k'); reflexivity.
    + rewrite IH. destruct (String.eqb_spec k0 k') as [->|Hne'].
      * destruct (String.eqb_spec k k'); [congruence|reflexivity].
      * reflexivity.
Qed.

Lemma dict_set_keys (d : Zip.dict) (k : string) (v : nat) (x : string) :
  In x (map fst (Zip.dict_set d k v)) <-> x = k \/ In x (map fst d).
Proof.
  induction d as [|[k0 v0] d IH]; simpl.
  - intuition.
  - destruct (String.eqb_spec k0 k) as [->|Hne]; simpl.
    + intuition.
    + rewrite IH. intuition.
Qed.

Lemma dict_set_nodup (d : Zip.dict) (k : string) (v : nat) :
  NoDup (map fst d) -> NoDup (map fst (Zip.dict_set d k v)).
Proof.
  induction d as [|[k0 v0] d IH]; simpl; intros H.
  - constructor; [intros []|constructor].
  - apply NoDup_cons_iff in H as [Hk0 Hd].
    destruct (String.eqb_spec k0 k) as [->|Hne]; simpl.
    + constructor; assumption.
    + constructor; [|auto]. rewrite dict_set_keys. intros [E|E]; auto.
Qed.

Lemma dict_bump_sum (d : Zip.dict) (k : string) :
  list_sum (map snd (Zip.dict_set d k (Zip.dict_get d k 0 + 1))) =
  list_sum (map snd d) + 1.
Proof.
  induction d as [|[k0 v0] d IH]; simpl.
  - reflexivity.
  - destruct (String.eqb k0 k); simpl; lia.
Qed.

Section ZipFacts.
Variable suffix_lower : string -> string.

(** One member of the archive. *)
Lemma analyze_step (info : Zip.structure_info) (f : string) :
  let info' := Zip.analyze suffix_lower info f in
  Zip.total_files info' =
    Zip.total_files info + (if is_folder_member f then 0 else 1) /\
  Zip.total_folders info' =
    Zip.total_folders info + (if is_folder_member f then 1 else 0) /\
  Zip.folder_structure info' =
    (Zip.folder_structure info ++
     (if is_folder_member f then [f] else []))%list /\
  (forall k,
      Zip.dict_get (Zip.file_types info') k 0 =
      Zip.dict_get (Zip.file_types info) k 0 +
      (if counted_as suffix_lower k f then 1 else 0)) /\
  (NoDup (map fst (Zip.file_types info)) ->
   NoDup (map fst (Zip.file_types info'))) /\
  list_sum (map snd (Zip.file_types info')) =
    list_sum (map snd (Zip.file_types info)) +
    (if is_folder_member f then 0 else 1).
Proof.
  unfold Zip.analyze, counted_as, type_key, is_folder_member.
  destruct (PyStr.endswith f "/");
    cbn [negb andb Zip.total_files Zip.total_folders Zip.file_types
         Zip.folder_structure].
  - rewrite !Nat.add_0_r. repeat split; auto.
  - destruct (String.eqb_spec (suffix_lower f) "") as [E|E];
      cbn [negb andb Zip.total_files Zip.total_folders Zip.file_types
           Zip.folder_structure];
      rewrite dict_bump_sum, app_nil_r, Nat.add_0_r;
      (split; [reflexivity|]); (split; [reflexivity|]);
      (split; [reflexivity|]); (split; [|split; [apply dict_set_nodup
                                               |reflexivity]]);
      intros k; rewrite dict_get_set.
    + destruct (String.eqb_spec "no_extension" k) as [<-|]; lia.
    + destruct (String.eqb_spec (suffix_lower f) k) as [<-|]; lia.
Qed.

(** The report after the loop, from any report before it. *)
Lemma analyze_all (file_list : list string) :
  forall info,
    let info' := fold_left (Zip.analyze suffix_lower) file_list info in
    Zip.total_files info' =
      Zip.total_files info +
      List.length (filter (fun f => negb (is_folder_member f)) file_list) /\
    Zip.total_folders info' =
      Zip.total_folders info +
      List.length (filter is_folder_member file_list) /\
    Zip.folder_structure info' =
      (Zip.folder_structure info ++ filter is_folder_member file_list)%list /\
    (forall k,
        Zip.dict_get (Zip.file_types info') k 0 =
        Zip.dict_get (Zip.file_types info) k 0 +
        List.length (filter (counted_as suffix_lower k) file_list)) /\
    (NoDup (map fst (Zip.file_types info)) ->
     NoDup (map fst (Zip.file_types info'))) /\
    list_sum (map snd (Zip.file_types info')) =
      list_sum (map snd (Zip.file_types info)) +
      List.length (filter (fun f => negb (is_folder_member f)) file_list).
Proof.
  induction file_list as [|f file_list IH]; intros info.
  - simpl. rewrite app_nil_r, !Nat.add_0_r. repeat split; auto.
  - cbn [fold_left filter].
    destruct (IH (Zip.analyze suffix_lower info f))
      as (Hf & Hd & Hs & Hk & Hn & Hsum).
    destruct (analyze_step info f) as (Sf & Sd & Ss & Sk & Sn & Ssum).
    cbv zeta in *.
    rewrite Hf, Hd, Hs, Hsum, Sf, Sd, Ss, Ssum.
    split; [|split; [|split; [|split; [|split]]]].
    + destruct (is_folder_member f); simpl; lia.
    + destruct (is_folder_member f); simpl; lia.
    + destruct (is_folder_member f); simpl;
        now rewrite <- app_assoc.
    + intros k. rewrite Hk, Sk.
      destruct (counted_as suffix_lower k f); simpl; lia.
    + auto.
    + destruct (is_folder_member f); simpl; lia.
Qed.

End ZipFacts.

(** X7. When [extract_zip_file] returns a structure report, the files and
    folders it counts are the members of the archive, folders being the
    names that end in "/" and listed in archive order; every key of
    [file_types] appears once and counts the file members with that
    lower-cased suffix ("no_extension" those without one), so the counts
    add up to [total_files]. *)
Theorem structure_report_counts_members (suffix_lower : string -> string)
  (extracts : string -> bool) (file_list : list string)
  (info : Zip.structure_info) :
  Zip.extract_zip_file suffix_lower extracts (Some file_list) = Some info ->
  Zip.total_files info + Zip.total_folders info = List.length file_list /\
  Zip.folder_structure info = filter is_folder_member file_list /\
  (forall k,
      Zip.dict_get (Zip.file_types info) k 0 =
      List.length (filter (counted_as suffix_lower k) file_list)) /\
  NoDup (map fst (Zip.file_types info)) /\
  list_sum (map snd (Zip.file_types info)) = Zip.total_files info.
Proof.
  unfold Zip.extract_zip_file.
  destruct (forallb extracts file_list); [|discriminate].
  intros H. injection H as <-.
  destruct (analyze_all suffix_lower file_list Zip.empty_info)
    as (Hf & Hd & Hs & Hk & Hn & Hsum).
  simpl in *.
  rewrite Hf, Hd, Hs, Hsum.
  pose proof (filter_complement_length is_folder_member file_list).
  repeat split; auto; try lia.
  apply Hn. constructor.
Qed.

Lemma structure_report_counts_members_witness :
  exists info,
    Zip.extract_zip_file sample_suffix (fun _ => true) (Some sample_archive)
      = Some info /\
    Zip.total_files info + Zip.total_folders info = 6 /\
    Zip.dict_get (Zip.file_types info) ".md" 0 = 2.
Proof.
  eexists. split; [reflexivity|].
  destruct (structure_report_counts_members sample_suffix (fun _ => true)
              sample_archive _ eq_refl) as (Hlen & _ & Hk & _).
  split; [exact Hlen | exact (Hk ".md")].
Defined.

(** A member that cannot be extracted, or an upload that is no archive,
    leaves no report at all. *)
Lemma failed_extraction_gives_nothing (suffix_lower : string -> string)
  (extracts : string -> bool) (file_list : list string) (f : string) :
  In f file_list -> extracts f = false ->
  Zip.extract_zip_file suffix_lower extracts (Some file_list) = None.
Proof.
  intros Hin Hf. unfold Zip.extract_zip_file.
  destruct (forallb extracts file_list) eqn:E; [|reflexivity].
  rewrite forallb_forall in E. rewrite (E f Hin) in Hf. discriminate.
Qed.

(** ** The command-line classifier *)

Lemma cli_categorize_bucket (b : bucket) (ft : Cli.file_types)
  (e : entry) :
  cli_bucket_list b (Cli.categorize ft e) =
  (cli_bucket_list b ft ++
   (if cli_routed b e then [entry_name e] else []))%list.
Proof.
  destruct e as [n sz| |]; simpl;
    try (destruct b; simpl; now rewrite ?app_nil_r).
  unfold cli_bucket.
  destruct (PyStr.endswith (PyStr.lower n) ".json");
    [|destruct (PyStr.endswith (PyStr.lower n) ".md");
      [|destruct (PyStr.endswith (PyStr.lower n) ".log")]];
    destruct b; simpl; now rewrite ?app_nil_r.
Qed.

Lemma cli_fold_bucket (b : bucket) (items : list entry) :
  forall ft,
    cli_bucket_list b (fold_left Cli.categorize items ft) =
    (cli_bucket_list b ft ++
     map entry_name (filter (cli_routed b) items))%list.
Proof.
  induction items as [|e items IH]; intros ft; simpl.
  - now rewrite app_nil_r.
  - rewrite IH, cli_categorize_bucket.
    destruct (cli_routed b e); simpl.
    + now rewrite <- app_assoc.
    + now rewrite app_nil_r.
Qed.

(** The lists of the command-line [get_file_types]: the listing filtered
    by extension. *)
Lemma cli_file_types_bucket (b : bucket) (items : list entry) :
  cli_bucket_list b (fold_left Cli.categorize items Cli.no_files) =
  map entry_name (filter (cli_routed b) items).
Proof. rewrite cli_fold_bucket. destruct b; reflexivity. Qed.

Lemma cli_say_nothing (d : Cli.detector) : Cli.say d [] = d.
Proof. destruct d. unfold Cli.say. simpl. now rewrite app_nil_r. Qed.

Lemma all_hidden_filter (names : list string) :
  Cli.all_hidden names = true <->
  filter (fun f => negb (PyStr.startswith f ".")) names = [].
Proof.
  induction names as [|f names IH]; simpl; [tauto|].
  destruct (PyStr.startswith f "."); simpl.
  - exact IH.
  - split; discriminate.
Qed.

Lemma routed_without_zero_bytes (e : entry) :
  match e with File _ sz => negb (zero_bytes sz) | _ => true end = true ->
  routed_to Json e = cli_routed Json e /\
  routed_to Md e = cli_routed Md e /\
  routed_to Log e = cli_routed Log e /\
  routed_to Other e =
    cli_routed Other e && negb (PyStr.startswith (entry_name e) ".") /\
  routed_to EmptyB e = false.
Proof.
  destruct e as [n sz| |]; simpl; intros H; try (repeat split; reflexivity).
  apply negb_true_iff in H.
  unfold routed_to, route, ext_bucket, cli_bucket, PyStr.hidden.
  rewrite H.
  destruct (PyStr.endswith (PyStr.lower n) ".json");
    [|destruct (PyStr.endswith (PyStr.lower n) ".md");
      [|destruct (PyStr.endswith (PyStr.lower n) ".log");
        [|destruct (PyStr.startswith n ".")]]];
    repeat split; reflexivity.
Qed.

(** Without zero-byte files the two partitions agree, up to the hidden
    files that the command-line script keeps in [other_files]. *)
Lemma partitions_agree (items : list entry) :
  no_zero_bytes items = true ->
  let cft := fold_left Cli.categorize items Cli.no_files in
  let ft := get_file_types true items in
  json_files ft = Cli.json_files cft /\
  md_files ft = Cli.md_files cft /\
  log_files ft = Cli.log_files cft /\
  other_files ft =
    filter (fun f => negb (PyStr.startswith f ".")) (Cli.other_files cft) /\
  empty_files ft = [].
Proof.
  intros Hz. cbv zeta.
  pose proof (get_file_types_bucket Json items) as Hj.
  pose proof (get_file_types_bucket Md items) as Hm.
  pose proof (get_file_types_bucket Log items) as Hg.
  pose proof (get_file_types_bucket Other items) as Ho.
  pose proof (get_file_types_bucket EmptyB items) as He.
  pose proof (cli_file_types_bucket Json items) as Cj.
  pose proof (cli_file_types_bucket Md items) as Cm.
  pose proof (cli_file_types_bucket Log items) as Cg.
  pose proof (cli_file_types_bucket Other items) as Co.
  cbn [bucket_list cli_bucket_list] in Hj, Hm, Hg, Ho, He, Cj, Cm, Cg, Co.
  rewrite Hj, Hm, Hg, Ho, He, Cj, Cm, Cg, Co.
  clear Hj Hm Hg Ho He Cj Cm Cg Co.
  unfold no_zero_bytes in Hz.
  induction items as [|e items IH]; [repeat split; reflexivity|].
  simpl in Hz. apply andb_true_iff in Hz as [He Hz].
  destruct (IH Hz) as (Ij & Im & Ig & Io & Ie).
  destruct (routed_without_zero_bytes e He) as (Rj & Rm & Rg & Ro & Re).
  simpl. rewrite Rj, Rm, Rg, Ro, Re.
  repeat split.
  - destruct (cli_routed Json e); simpl; now rewrite Ij.
  - destruct (cli_routed Md e); simpl; now rewrite Im.
  - destruct (cli_routed Log e); simpl; now rewrite Ig.
  - destruct (cli_routed Other e); simpl; [|exact Io].
    destruct (PyStr.startswith (entry_name e) "."); simpl;
      now rewrite Io.
  - exact Ie.
Qed.

Lemma not_all_hidden_nonempty (names : list string) :
  Cli.all_hidden names = false -> 0 < List.length names.
Proof. destruct names; simpl; [discriminate | lia]. Qed.

(** X8. On a listing without zero-byte files the command-line classifier
    follows the decision policy of the dashboard: it reports an empty
    folder or a JSON-only folder (with the same JSON files) exactly where
    the dashboard does, prints "Valid" where the dashboard files a valid
    folder, and reports nothing where the dashboard drops the folder. *)
Theorem cli_follows_the_dashboard_policy (d : Cli.detector)
  (folder_path : Path) (relative_path : string) (items : list entry) :
  no_zero_bytes items = true ->
  Cli.check_leaf_folder d folder_path relative_path true items =
  match category_of items with
  | Some EmptyFolders => cli_flag_empty d folder_path relative_path
  | Some JsonOnlyFolders =>
      cli_flag_json_only d folder_path relative_path
        (json_files (get_file_types true items))
  | Some ValidFolders =>
      Cli.say d [Cli.ValidFolder relative_path (count Md true items)]
  | _ => d
  end.
Proof.
  intros Hz.
  destruct (partitions_agree items Hz) as (Hj & Hm & Hg & Ho & He).
  unfold category_of, count. cbn [bucket_list].
  rewrite Hj, Hm, Hg, Ho, He.
  unfold Cli.check_leaf_folder, Cli.get_file_types.
  rewrite cli_say_nothing.
  set (cft := fold_left Cli.categorize items Cli.no_files).
  pose proof (all_hidden_filter (Cli.other_files cft)) as Hah.
  pose proof (not_all_hidden_nonempty (Cli.other_files cft)) as Hne.
  cbv zeta. cbn [List.length]. change (0 =? 0) with true.
  destruct (Cli.all_hidden (Cli.other_files cft)) eqn:Eah; cbn [negb].
  - rewrite (proj1 Hah eq_refl). cbn [List.length].
    change (0 =? 0) with true. rewrite !Nat.add_0_r, !andb_true_r.
    destruct (Nat.eqb_spec
                (List.length (Cli.json_files cft) +
                 List.length (Cli.md_files cft) +
                 List.length (Cli.log_files cft)) 0) as [Ht|Ht];
      [reflexivity|].
    destruct (Nat.ltb_spec 0 (List.length (Cli.json_files cft)));
    destruct (Nat.eqb_spec (List.length (Cli.md_files cft)) 0);
    destruct (Nat.eqb_spec (List.length (Cli.log_files cft)) 0);
    cbn [andb]; try reflexivity;
    change (0 <? 0) with false; cbv iota;
    destruct (Nat.ltb_spec 0 (List.length (Cli.md_files cft)));
    try reflexivity; lia.
  - assert (Hf : filter (fun f => negb (PyStr.startswith f "."))
                   (Cli.other_files cft) <> []).
    { intros E. apply Hah in E. discriminate. }
    specialize (Hne eq_refl).
    set (o' := filter (fun f => negb (PyStr.startswith f "."))
                 (Cli.other_files cft)) in *.
    assert (Ho' : 0 < List.length o')
      by (destruct o'; [congruence | simpl; lia]).
    destruct (Nat.eqb_spec
                (List.length (Cli.json_files cft) +
                 List.length (Cli.md_files cft) +
                 List.length (Cli.log_files cft) +
                 List.length (Cli.other_files cft)) 0); [lia|].
    destruct (Nat.eqb_spec
                (List.length (Cli.json_files cft) +
                 List.length (Cli.md_files cft) +
                 List.length (Cli.log_files cft) +
                 List.length o') 0); [lia|].
    destruct (Nat.eqb_spec (List.length o') 0); [lia|].
    rewrite !andb_false_r. cbn [andb].
    change (0 <? 0) with false. cbv iota.
    destruct (Nat.ltb_spec 0 (List.length (Cli.md_files cft)));
      reflexivity.
Qed.

Lemma cli_follows_the_dashboard_policy_witness :
  let items := [File "meta.json" (Some 5%N); File ".DS_Store" (Some 6%N)] in
  no_zero_bytes items = true /\
  Cli.check_leaf_folder cli_start (PyPath.of_string "textData/C")
    "textData/C" true items =
  cli_flag_json_only cli_start (PyPath.of_string "textData/C")
    "textData/C" ["meta.json"].
Proof.
  split; [reflexivity|].
  apply (cli_follows_the_dashboard_policy cli_start
           (PyPath.of_string "textData/C") "textData/C"
           [File "meta.json" (Some 5%N); File ".DS_Store" (Some 6%N)]).
  reflexivity.
Defined.

Lemma filter_none {A : Type} (sel : A -> bool) (xs : list A) :
  (forall x, In x xs -> sel x = false) -> filter sel xs = [].
Proof.
  induction xs as [|x xs IH]; intros H; [reflexivity|].
  simpl. rewrite (H x (or_introl eq_refl)). apply IH.
  intros y Hy. apply H. now right.
Qed.

(** X9. The command-line script keeps hidden files in [other_files] and
    then discounts them: a leaf whose files are all hidden and carry none
    of the three extensions is reported as an empty folder, whatever the
    sizes. *)
Theorem cli_hidden_files_only_is_empty_folder (d : Cli.detector)
  (folder_path : Path) (relative_path : string) (items : list entry) :
  (forall n sz, In (File n sz) items ->
                PyStr.startswith n "." = true /\ known_ext n = false) ->
  Cli.check_leaf_folder d folder_path relative_path true items =
  cli_flag_empty d folder_path relative_path.
Proof.
  intros H.
  assert (Hb : forall n sz, In (File n sz) items -> cli_bucket n = Other).
  { intros n sz Hin. destruct (H n sz Hin) as [_ Hk].
    unfold known_ext in Hk. unfold cli_bucket.
    apply orb_false_iff in Hk as [Hk Hlog].
    apply orb_false_iff in Hk as [Hjson Hmd].
    now rewrite Hjson, Hmd, Hlog. }
  assert (Hnone : forall b, b <> Other -> filter (cli_routed b) items = []).
  { intros b Hne. apply filter_none. intros [n sz| |] Hin; try reflexivity.
    simpl. rewrite (Hb n sz Hin). destruct b; try reflexivity.
    congruence. }
  pose proof (cli_file_types_bucket Json items) as Cj.
  pose proof (cli_file_types_bucket Md items) as Cm.
  pose proof (cli_file_types_bucket Log items) as Cg.
  pose proof (cli_file_types_bucket Other items) as Co.
  cbn [cli_bucket_list] in Cj, Cm, Cg, Co.
  rewrite Hnone in Cj, Cm, Cg by discriminate.
  unfold Cli.check_leaf_folder, Cli.get_file_types.
  rewrite cli_say_nothing, Cj, Cm, Cg, Co. cbv zeta.
  assert (Hall : Cli.all_hidden
                   (map entry_name (filter (cli_routed Other) items))
                 = true).
  { unfold Cli.all_hidden. apply forallb_forall. intros f Hf.
    apply in_map_iff in Hf as (e & <- & He).
    apply filter_In in He as [He Hr].
    destruct e as [n sz| |]; try discriminate.
    apply (H n sz He). }
  rewrite Hall.
  rewrite (proj1 (all_hidden_filter _) Hall). reflexivity.
Qed.

Lemma cli_hidden_files_only_is_empty_folder_witness :
  Cli.check_leaf_folder cli_start (PyPath.of_string "textData/H")
    "textData/H" true
    [File ".DS_Store" (Some 6148%N); File ".gitkeep" (Some 0%N)] =
  cli_flag_empty cli_start (PyPath.of_string "textData/H") "textData/H".
Proof.
  apply cli_hidden_files_only_is_empty_folder.
  intros n sz [E|[E|[]]]; injection E as <- <-; split; reflexivity.
Defined.

(** ** The command-line walker *)

(** The four things the command-line classifier can do. *)
Lemma cli_check_outcomes (d : Cli.detector) (folder_path : Path)
  (relative_path : string) (items : list entry) :
  let d' := Cli.check_leaf_folder d folder_path relative_path true items in
  d' = cli_flag_empty d folder_path relative_path \/
  (exists jsons, d' = cli_flag_json_only d folder_path relative_path jsons)
  \/ (exists k, d' = Cli.say d [Cli.ValidFolder relative_path k])
  \/ d' = d.
Proof.
  unfold Cli.check_leaf_folder, Cli.get_file_types.
  rewrite cli_say_nothing. cbv zeta.
  match goal with
  | |- context [if ?c then _ else _] => destruct c
  end; [left; reflexivity|].
  match goal with
  | |- context [if ?c then _ else _] => destruct c
  end; [right; left; eexists; reflexivity|].
  match goal with
  | |- context [if ?c then _ else _] => destruct c
  end; [right; right; left; eexists; reflexivity|].
  right; right; right; reflexivity.
Qed.

Lemma cli_scan_is_fold (e : entry) :
  forall d folder_path relative_path,
    Cli.scan_folder d folder_path e relative_path =
    fold_left cli_apply (cli_visits folder_path e relative_path) d.
Proof.
  induction e as [n sz|n|n l items IH] using entry_tree_ind;
    intros d folder_path relative_path; try reflexivity.
  simpl.
  destruct (PyStr.startswith (PyPath.name folder_path) ".");
    [reflexivity|].
  destruct l; [|reflexivity].
  destruct (Cli.is_leaf_folder items); [reflexivity|].
  generalize (Cli.join_relative relative_path (PyPath.name folder_path)).
  intros cur. revert d.
  induction items as [|c items IHitems]; intros d; [reflexivity|].
  inversion IH as [|? ? IHc IHrest]; subst.
  simpl. rewrite fold_left_app, (IHitems IHrest).
  f_equal. destruct c as [|m l' sub|]; try reflexivity.
  apply IHc.
Qed.

Lemma printed_empty_app (a b : list Cli.printed) :
  printed_empty (a ++ b) = (printed_empty a ++ printed_empty b)%list.
Proof. apply flat_map_app. Qed.

Lemma printed_json_only_app (a b : list Cli.printed) :
  printed_json_only (a ++ b) =
  (printed_json_only a ++ printed_json_only b)%list.
Proof. apply flat_map_app. Qed.

Lemma cli_apply_keeps_match (d : Cli.detector) (v : cli_visit) :
  console_matches_report d -> console_matches_report (cli_apply d v).
Proof.
  intros [He Hj]. destruct v as [p rel items|p]; simpl.
  - destruct (cli_check_outcomes d p rel items)
      as [-> | [(jsons & ->) | [(k & ->) | ->]]];
      unfold console_matches_report, cli_flag_empty, cli_flag_json_only,
        Cli.say; simpl;
      rewrite ?printed_empty_app, ?printed_json_only_app, ?map_app, He, Hj;
      simpl; rewrite ?app_nil_r; split; reflexivity.
  - unfold console_matches_report, Cli.say; simpl.
    rewrite printed_empty_app, printed_json_only_app, He, Hj. simpl.
    rewrite !app_nil_r. split; reflexivity.
Qed.

Lemma cli_scan_keeps_match (e : entry) (d : Cli.detector)
  (folder_path : Path) (relative_path : string) :
  console_matches_report d ->
  console_matches_report (Cli.scan_folder d folder_path e relative_path).
Proof.
  rewrite cli_scan_is_fold.
  generalize (cli_visits folder_path e relative_path). intros vs.
  revert d. induction vs as [|v vs IH]; intros d H; [exact H|].
  simpl. apply IH. now apply cli_apply_keeps_match.
Qed.

(** X10. After a run of the command-line script, whatever the root, the
    folders announced on the console as empty are the paths of
    [empty_folders], in the same order, and the folders announced as
    JSON-only, with their JSON files, are the records of
    [json_only_folders]; when the root is a directory the summary holds
    the lengths of the two lists and their sum. *)
Theorem cli_console_matches_the_report (fs : filesystem)
  (now root : string) :
  let d := Cli.run fs now root in
  console_matches_report d /\
  match fs (PyPath.of_string root) with
  | Some (Dir _ _ _) =>
      Cli.summary (Cli.missing_files_report d) =
        Some (Cli.mkSummary
                (List.length (printed_empty (Cli.console d)))
                (List.length (printed_json_only (Cli.console d)))
                (List.length (printed_empty (Cli.console d)) +
                 List.length (printed_json_only (Cli.console d))))
  | _ => Cli.summary (Cli.missing_files_report d) = None
  end.
Proof.
  unfold Cli.run. cbv zeta.
  destruct (fs (PyPath.of_string root)) as [[|n l items|]|];
    try (split; [split; reflexivity | reflexivity]).
  set (d0 := Cli.say (Cli.mkDetector _ _) _).
  assert (H : console_matches_report
                (Cli.scan_folder d0 (PyPath.of_string root)
                   (Dir n l items) "")).
  { apply cli_scan_keeps_match. split; reflexivity. }
  destruct H as [He Hj].
  unfold Cli.generate_report, Cli.say, console_matches_report.
  cbn [Cli.console Cli.missing_files_report Cli.empty_folders
       Cli.json_only_folders Cli.summary].
  rewrite !printed_empty_app, !printed_json_only_app.
  cbn [printed_empty printed_json_only flat_map app].
  rewrite !app_nil_r, He, Hj, !length_map. repeat split.
Qed.

Lemma cli_missing_root_witness :
  Cli.console (Cli.run sample_fs "2024-01-01T00:00:00" "nowhere") =
    [Cli.ScanningIn "nowhere"; Cli.Rule; Cli.ErrNotExist "nowhere"] /\
  Cli.console
    (Cli.run sample_fs "2024-01-01T00:00:00" "textData/B/notes.md") =
    [Cli.ScanningIn "textData/B/notes.md"; Cli.Rule;
     Cli.ErrNotDirectory "textData/B/notes.md"].
Proof.
  split.
  - apply (cli_missing_root sample_fs "2024-01-01T00:00:00" "nowhere").
    left. reflexivity.
  - apply (cli_missing_root sample_fs "2024-01-01T00:00:00"
             "textData/B/notes.md").
    right. eexists. split; reflexivity.
Defined.

(** ** The simplified script *)

Lemma simple_root_not_a_directory_witness :
  Simple.scan_for_missing_files sample_fs "2024-01-01 00:00:00"
    "textData/B/notes.md" =
  (Simple.mkResults [] [] "2024-01-01 00:00:00",
   [Simple.Scanning "textData/B/notes.md"; Simple.Dashes]).
Proof.
  apply (simple_root_not_a_directory sample_fs "2024-01-01 00:00:00"
           "textData/B/notes.md" (File "notes.md" (Some 10%N)));
    reflexivity.
Defined.

Lemma simple_hidden_files_only_witness :
  Simple.visit (Simple.mkResults [] [] "2024-01-01 00:00:00", [])
    (["H"], [File ".DS_Store" (Some 6148%N); Special ".lock"]) =
  (Simple.mkResults ["H"] [] "2024-01-01 00:00:00", [Simple.Empty "H"]).
Proof.
  apply (simple_hidden_files_only
           (Simple.mkResults [] [] "2024-01-01 00:00:00") [] ["H"]
           [File ".DS_Store" (Some 6148%N); Special ".lock"]);
    reflexivity.
Defined.

Lemma walk_dirs_all_nil (items : list entry) :
  walk_dirs (fun _ => true) items = [] -> existsb is_dir items = false.
Proof.
  unfold walk_dirs. induction items as [|e items IH]; [reflexivity|].
  simpl. destruct (is_dir e); simpl; [discriminate | exact IH].
Qed.

Section SimpleReports.
Variable walked : list (list string * list entry).

Lemma simple_visit_reports_leaves
  (acc : Simple.results_t * list Simple.printed)
  (y : list string * list entry) :
  In y walked -> reported_leaves walked acc ->
  reported_leaves walked (Simple.visit acc y).
Proof.
  intros Hy Hacc. destruct acc as [res out]. destruct y as [rel items].
  unfold Simple.visit. cbn [fst snd].
  destruct (walk_dirs (fun _ => true) items) eqn:Hd; [|exact Hacc].
  apply walk_dirs_all_nil in Hd.
  repeat match goal with
         | |- context [if ?c then _ else _] => destruct c
         end; try exact Hacc;
    intros path; cbn [fst Simple.empty_folders Simple.json_only_folders];
    rewrite ?map_app, ?in_app_iff; simpl;
    intros H; (repeat destruct H as [H|H]; try contradiction);
    try (apply Hacc; auto; fail);
    exists rel, items; auto.
Qed.

Lemma simple_fold_reports_leaves (ys : list (list string * list entry)) :
  forall acc,
    (forall y, In y ys -> In y walked) -> reported_leaves walked acc ->
    reported_leaves walked (fold_left Simple.visit ys acc).
Proof.
  induction ys as [|y ys IH]; intros acc Hsub Hacc; [exact Hacc|].
  simpl. apply IH.
  - intros z Hz. apply Hsub. now right.
  - apply simple_visit_reports_leaves; [apply Hsub; now left | exact Hacc].
Qed.

End SimpleReports.

(** X14. Every path the simplified script reports, as empty or as
    JSON-only, is the relative path of a directory that [os.walk] yields
    below the root, hidden directories included, and that has no
    subdirectory. *)
Theorem simple_reports_are_walked_leaves (fs : filesystem)
  (now root_path : string) (top : entry) (path : string) :
  fs (PyPath.of_string root_path) = Some top ->
  let results := fst (Simple.scan_for_missing_files fs now root_path) in
  In path (Simple.empty_folders results) \/
  In path (map Simple.j_path (Simple.json_only_folders results)) ->
  exists rel items,
    In (rel, items) (os_walk (fun _ => true) [] top) /\
    existsb is_dir items = false /\
    path = PyPath.str_relative rel.
Proof.
  intros Hfs. unfold Simple.scan_for_missing_files. rewrite Hfs.
  apply (simple_fold_reports_leaves (os_walk (fun _ => true) [] top)
           (os_walk (fun _ => true) [] top)
           (Simple.mkResults [] [] now,
            [Simple.Scanning root_path; Simple.Dashes])).
  - auto.
  - intros p [[]|[]].
Qed.

Lemma simple_reports_are_walked_leaves_witness :
  exists rel items,
    In (rel, items) (os_walk (fun _ => true) [] mixed_tree) /\
    existsb is_dir items = false /\
    ".git/objects" = PyPath.str_relative rel.
Proof.
  apply (simple_reports_are_walked_leaves mixed_fs "2024-01-01 00:00:00"
           "textData" mixed_tree ".git/objects" eq_refl).
  left. vm_compute. auto.
Defined.

Lemma leaf_dirs_nodup_witness :
  NoDup (map fst (leaf_dirs sample_tree)).
Proof.
  apply leaf_dirs_nodup.
  simpl. repeat split; repeat constructor; simpl; intuition discriminate.
Defined.

(** C9, at the failing input.  The simplified script on a root that
    exists and is a regular file: it prints its scanning line and the line
    of dashes, reports no error, and returns its two lists empty. *)
Theorem simple_file_root_is_not_reported (now : string) :
  Simple.scan_for_missing_files sample_fs now "textData/B/notes.md" =
    (Simple.mkResults [] [] now,
     [Simple.Scanning "textData/B/notes.md"; Simple.Dashes]) /\
  ~ In (Simple.ErrNotFound "textData/B/notes.md")
       (snd (Simple.scan_for_missing_files sample_fs now
               "textData/B/notes.md")).
Proof.
  split; [reflexivity|]. simpl. intros [H|[H|[]]]; discriminate.
Qed.
